(** * SessionManager: a shallow embedding of the session lifecycle manager

    The definitions follow the class [SessionManager] of the front end
    (validation cache, refresh coordinator, identity-context resolver,
    cleanup engine, listener fan-out).  JavaScript values are modelled by
    the types the TypeScript interfaces declare for them; time is read from
    an explicit clock argument; the identity provider, the storage manager
    and the browser storage are explicit state or oracles. *)

From Stdlib Require Import ZArith List String Ascii Bool Lia Arith.
From Stdlib Require Import DecimalString.
From Stdlib Require DecimalPos DecimalZ.
Import ListNotations.
Open Scope string_scope.
Open Scope Z_scope.

(** ** JavaScript string primitives used by the manager *)

Module JsString.

(** [s.startsWith(p)] *)
Fixpoint startsWith (p s : string) : bool :=
  match p, s with
  | EmptyString, _ => true
  | String a p', String b s' => Ascii.eqb a b && startsWith p' s'
  | String _ _, EmptyString => false
  end.

(** [s.includes(p)] *)
Fixpoint includes (p s : string) : bool :=
  startsWith p s ||
  match s with
  | EmptyString => false
  | String _ s' => includes p s'
  end.

(** [s.split(sep)] for a one-character separator: never the empty list. *)
Fixpoint split (sep : ascii) (s : string) : list string :=
  match s with
  | EmptyString => [EmptyString]
  | String c r =>
      if Ascii.eqb c sep then EmptyString :: split sep r
      else match split sep r with
           | h :: t => String c h :: t
           | [] => [String c EmptyString]
           end
  end.

(** A string is truthy when it is not empty. *)
Definition truthy (s : string) : bool :=
  match s with EmptyString => false | _ => true end.

(** [a || b] on strings. *)
Definition or_else (a b : string) : string := if truthy a then a else b.

(** [x?.p || d] where the property may be absent (undefined). *)
Definition opt_or (a : option string) (d : string) : string :=
  match a with
  | Some s => or_else s d
  | None => d
  end.

(** Template-literal rendering of an integer time stamp. *)
Definition of_Z (n : Z) : string := NilZero.string_of_int (Z.to_int n).

End JsString.

(** ** Data model *)

(** The part of the provider's [User] the manager reads.  [app_tenant] and
    [user_tenant] are [user.app_metadata?.tenant_id] and
    [user.user_metadata?.tenant_id]; [None] is undefined. *)
Record User := mkUser {
  id : string;
  email : option string;
  app_tenant : option string;
  user_tenant : option string
}.

Record Session := mkSession {
  access_token : string;
  refresh_token : string;
  expires_at : option Z;
  user : User
}.

Record SessionContext := mkContext {
  user_id : string;
  tenant_id : string;
  ctx_email : string;
  session_id : string;
  login_timestamp : Z;
  last_activity : Z
}.

Inductive SessionChangeType :=
| login | logout | user_change | tenant_change | cleanup | corruption_detected.

Record SessionChangeEvent := mkEvent {
  type : SessionChangeType;
  previous_context : option SessionContext;
  new_context : option SessionContext;
  cleanup_performed : bool;
  timestamp : Z
}.

Record SessionValidation := mkValidation {
  isValid : bool;
  session : option Session;
  error : option string
}.

(** ** Identity context resolver *)

(** What [JSON.parse(atob(segment))] evaluates to, as far as the resolver
    looks at it.  [PayloadNull] is the JSON value null, on which the property
    access [payload.tenant_id] throws; [PayloadValue t] is any other value,
    with [t] its [tenant_id] property ([None]: undefined). *)
Inductive Payload :=
| PayloadNull
| PayloadValue (claim : option string).

Definition mock_token : string := "mock-token-123".

(** The first test of the [try] block: the token is non-empty, contains a
    dot and splits into exactly three parts. *)
Definition three_part (tok : string) : bool :=
  JsString.truthy tok && JsString.includes "." tok
  && (List.length (JsString.split "."%char tok) =? 3)%nat.

(** The payload segment, [access_token.split('.')[1]]. *)
Definition payload_segment (tok : string) : string :=
  nth 1 (JsString.split "."%char tok) EmptyString.

Section Resolver.

(** [JSON.parse(atob(s))]; [None] when [atob] or [JSON.parse] throws. *)
Variable decode : string -> option Payload.

(** The [try] block of [createSessionContext]: [None] when it throws,
    otherwise the value of [tenant_id] at its end. *)
Definition tenant_from_token (tok : string) : option string :=
  if three_part tok
  then
    match decode (payload_segment tok) with
    | None => None
    | Some PayloadNull => None
    | Some (PayloadValue c) => Some (JsString.opt_or c "")
    end
  else if String.eqb tok mock_token then Some "tenant-a"
  else Some "".

(** The [catch] block: fall back to the identity record's metadata. *)
Definition tenant_from_metadata (u : User) : string :=
  JsString.opt_or (app_tenant u) (JsString.opt_or (user_tenant u) "").

Definition resolve_tenant (s : Session) : string :=
  match tenant_from_token (access_token s) with
  | Some t => t
  | None => tenant_from_metadata (user s)
  end.

(** [createSessionContext]; [t1], [t2], [t3] are the three successive
    readings of [Date.now()]. *)
Definition createSessionContext (s : Session) (t1 t2 t3 : Z) : SessionContext :=
  {| user_id := id (user s);
     tenant_id := resolve_tenant s;
     ctx_email := JsString.opt_or (email (user s)) "";
     session_id := "session_" ++ id (user s) ++ "_" ++ JsString.of_Z t1;
     login_timestamp := t2;
     last_activity := t3 |}.

(** The fallback chain as the specification words it: the first value
    present (and not empty) among the token's claim, the application-level
    metadata and the user-level metadata, else the empty string. *)
Fixpoint first_present (l : list (option string)) : string :=
  match l with
  | [] => ""
  | Some v :: rest => if JsString.truthy v then v else first_present rest
  | None :: rest => first_present rest
  end.

(** The [tenant_id] claim of the token's structured payload, if the token
    has such a payload and it carries one. *)
Definition token_claim (tok : string) : option string :=
  if three_part tok then
    match decode (payload_segment tok) with
    | Some (PayloadValue c) => c
    | _ => None
    end
  else None.

Definition spec_tenant (s : Session) : string :=
  first_present [token_claim (access_token s);
                 app_tenant (user s); user_tenant (user s)].

End Resolver.

(** A decoder that knows three payload segments: one carrying the claim
    tenant-a, one carrying no claim, and one holding JSON null. *)
Definition sample_decode (seg : string) : option Payload :=
  if String.eqb seg "claimA" then Some (PayloadValue (Some "tenant-a"))
  else if String.eqb seg "noclaim" then Some (PayloadValue None)
  else if String.eqb seg "null" then Some PayloadNull
  else None.

Definition sample_user : User :=
  {| id := "u1"; email := Some "u1@example.com";
     app_tenant := Some "tenant-b"; user_tenant := Some "tenant-c" |}.

Definition sample_session (tok : string) : Session :=
  {| access_token := tok; refresh_token := "r"; expires_at := None;
     user := sample_user |}.

(** ** The manager's fields *)

(** A promise is named by a handle; what it settles to is kept in the
    world's promise table (see [World]). *)
Definition Handle := nat.

Record Manager := mkManager {
  sessionValidationPromise : option Handle;
  lastValidationTime : Z;
  isRefreshing : bool;
  refreshPromise : option Handle;
  currentContext : option SessionContext;
  isCleanupInProgress : bool
}.

Definition VALIDATION_CACHE_DURATION : Z := 300000.
Definition MAX_RETRY_ATTEMPTS : nat := 5.
Definition RETRY_DELAY_BASE : Z := 1000.
Definition SESSION_TIMEOUT : Z := 24 * 60 * 60 * 1000.

Definition initial_manager : Manager :=
  {| sessionValidationPromise := None; lastValidationTime := 0;
     isRefreshing := false; refreshPromise := None;
     currentContext := None; isCleanupInProgress := false |}.

Definition set_validation (p : option Handle) (t : Z) (m : Manager) : Manager :=
  {| sessionValidationPromise := p; lastValidationTime := t;
     isRefreshing := isRefreshing m; refreshPromise := refreshPromise m;
     currentContext := currentContext m;
     isCleanupInProgress := isCleanupInProgress m |}.

Definition set_refresh (b : bool) (p : option Handle) (m : Manager) : Manager :=
  {| sessionValidationPromise := sessionValidationPromise m;
     lastValidationTime := lastValidationTime m;
     isRefreshing := b; refreshPromise := p;
     currentContext := currentContext m;
     isCleanupInProgress := isCleanupInProgress m |}.

Definition set_context (c : option SessionContext) (m : Manager) : Manager :=
  {| sessionValidationPromise := sessionValidationPromise m;
     lastValidationTime := lastValidationTime m;
     isRefreshing := isRefreshing m; refreshPromise := refreshPromise m;
     currentContext := c;
     isCleanupInProgress := isCleanupInProgress m |}.

Definition set_cleanup (b : bool) (m : Manager) : Manager :=
  {| sessionValidationPromise := sessionValidationPromise m;
     lastValidationTime := lastValidationTime m;
     isRefreshing := isRefreshing m; refreshPromise := refreshPromise m;
     currentContext := currentContext m;
     isCleanupInProgress := b |}.

(** [invalidateCache], also the two assignments at the end of the primary
    path of [performRefresh]. *)
Definition invalidateCache (m : Manager) : Manager := set_validation None 0 m.

(** ** Retried validation *)

(** A JavaScript error value: its [message], if it has one. *)
Definition JsError := option string.

Inductive GetSessionOutcome :=
| GS_rejects (e : JsError)            (* the call itself throws *)
| GS_error (e : JsError)              (* [{ error }] is set: the code throws it *)
| GS_session (s : option Session).    (* [{ data: { session } }] *)

Inductive GetUserOutcome :=
| GU_rejects (e : JsError)
| GU_result (u : option User) (userError : option JsError).

(** What one attempt of [performValidation] observes: the provider's answers,
    the clock at the expiry test, and what [this.refreshSession()] resolves
    to if the attempt asks for it. *)
Record AttemptEnv := mkAttempt {
  gs : GetSessionOutcome;
  now : Z;
  gu : GetUserOutcome;
  refreshed : option Session
}.

Inductive Action :=
| Act_getSession
| Act_getUser (tok : string)
| Act_refreshSession
| Act_sleep (ms : Z).

Definition invalid (msg : string) : SessionValidation :=
  {| isValid := false; session := None; error := Some msg |}.

Definition valid (s : Session) : SessionValidation :=
  {| isValid := true; session := Some s; error := None |}.

(** The body of the [try] of one attempt: [inl e] when it throws [e],
    [inr v] when it returns [v]; with the provider calls it made. *)
Definition attempt_body (a : AttemptEnv) : (JsError + SessionValidation) * list Action :=
  match gs a with
  | GS_rejects e => (inl e, [Act_getSession])
  | GS_error e => (inl e, [Act_getSession])
  | GS_session None => (inr (invalid "No session found"), [Act_getSession])
  | GS_session (Some s) =>
      let expiring :=
        match expires_at s with
        | Some exp => negb (exp =? 0) && (exp * 1000 - now a <? 60000)
        | None => false
        end in
      if expiring then
        match refreshed a with
        | Some r => (inr (valid r), [Act_getSession; Act_refreshSession])
        | None => (inr (invalid "Failed to refresh expired token"),
                   [Act_getSession; Act_refreshSession])
        end
      else
        match gu a with
        | GU_rejects e => (inl e, [Act_getSession; Act_getUser (access_token s)])
        | GU_result u uerr =>
            let failed := match uerr, u with
                          | Some _, _ => true
                          | None, None => true
                          | None, Some _ => false
                          end in
            if failed then
              match refreshed a with
              | Some r => (inr (valid r),
                           [Act_getSession; Act_getUser (access_token s);
                            Act_refreshSession])
              | None =>
                  (inr (invalid
                          (JsString.opt_or
                             (match uerr with Some e => e | None => None end)
                             "User validation failed")),
                   [Act_getSession; Act_getUser (access_token s);
                    Act_refreshSession])
              end
            else (inr (valid s), [Act_getSession; Act_getUser (access_token s)])
        end
  end.

(** The delay of the [catch] block after failed attempt [attempt]. *)
Definition backoff (attempt : nat) : Z :=
  RETRY_DELAY_BASE * 2 ^ (Z.of_nat attempt - 1).

(** The [for] loop from [attempt] on, with [remaining] attempts left
    ([remaining = MAX_RETRY_ATTEMPTS + 1 - attempt]); [env n] is what attempt
    [n] observes. *)
Fixpoint validation_loop (env : nat -> AttemptEnv) (remaining attempt : nat)
    (lastError : option JsError) : SessionValidation * list Action :=
  match remaining with
  | O =>
      (invalid (JsString.opt_or
                  (match lastError with Some e => e | None => None end)
                  "Session validation failed after all retries"), [])
  | S remaining' =>
      match attempt_body (env attempt) with
      | (inr v, acts) => (v, acts)
      | (inl e, acts) =>
          let sleep :=
            if (attempt <? MAX_RETRY_ATTEMPTS)%nat
            then [Act_sleep (backoff attempt)] else [] in
          let '(v, rest) :=
            validation_loop env remaining' (S attempt) (Some e) in
          (v, (acts ++ sleep ++ rest)%list)
      end
  end.

Definition performValidation (env : nat -> AttemptEnv) : SessionValidation * list Action :=
  validation_loop env MAX_RETRY_ATTEMPTS 1%nat None.

Definition delays (l : list Action) : list Z :=
  flat_map (fun a => match a with Act_sleep ms => [ms] | _ => [] end) l.

Definition probes (l : list Action) : nat :=
  List.length (filter (fun a => match a with Act_getUser _ => true | _ => false end) l).


(** An attempt on which the session is found and [getUser] throws. *)
Definition probe_throws (msg : string) : AttemptEnv :=
  {| gs := GS_session (Some (sample_session "tok")); now := 0;
     gu := GU_rejects (Some msg); refreshed := None |}.

(** An attempt on which the session is found and the probe succeeds. *)
Definition probe_ok : AttemptEnv :=
  {| gs := GS_session (Some (sample_session "tok")); now := 0;
     gu := GU_result (Some sample_user) None; refreshed := None |}.

(** ** The world around the manager: promise handles and launched work *)

Record World := mkWorld {
  mgr : Manager;
  next_handle : Handle;
  validations : list Handle;   (* promises made by [performValidation()] *)
  refreshes : list Handle      (* promises made by [performRefresh()] *)
}.

Definition initial_world : World :=
  {| mgr := initial_manager; next_handle := 0%nat;
     validations := []; refreshes := [] |}.

Definition with_mgr (m : Manager) (w : World) : World :=
  {| mgr := m; next_handle := next_handle w;
     validations := validations w; refreshes := refreshes w |}.

(** ** Validation cache *)

(** [validateSession]: [t1] is the clock read by the cache test, [t2] the
    clock read when a new validation starts.  Returns the promise handed to
    the caller. *)
Definition validateSession (t1 t2 : Z) (w : World) : Handle * World :=
  let m := mgr w in
  match sessionValidationPromise m with
  | Some p =>
      if t1 - lastValidationTime m <? VALIDATION_CACHE_DURATION then (p, w)
      else
        let h := next_handle w in
        (h, {| mgr := set_validation (Some h) t2 m;
               next_handle := S h;
               validations := (validations w ++ [h])%list;
               refreshes := refreshes w |})
  | None =>
      let h := next_handle w in
      (h, {| mgr := set_validation (Some h) t2 m;
             next_handle := S h;
             validations := (validations w ++ [h])%list;
             refreshes := refreshes w |})
  end.





(** ** Refresh coordinator *)

Inductive RefreshOutcome :=
| RO_rejects                                        (* the call throws *)
| RO_result (s : option Session) (err : bool).      (* [{ data: { session }, error }] *)

(** [localStorage.getItem(storageKey)] followed by [JSON.parse] and the test
    of [parsed?.currentSession?.refresh_token]. *)
Inductive StoredSession :=
| Stored_absent
| Stored_unparsable
| Stored_without_token
| Stored_with_token (tok : string).

Record RefreshEnv := mkRefreshEnv {
  primary : RefreshOutcome;
  storageKey_throws : bool;     (* computing the key from the URL throws *)
  stored : StoredSession;
  fallback : RefreshOutcome;
  setSession_throws : bool
}.

Inductive RAction :=
| RA_refreshSession (override : option string)   (* [supabase.auth.refreshSession] *)
| RA_setSession (s : Session).

(** [performRefresh]: the credential returned, the manager afterwards and the
    credential-store calls made. *)
Definition performRefresh (e : RefreshEnv) (m : Manager)
    : option Session * Manager * list RAction :=
  match primary e with
  | RO_rejects => (None, m, [RA_refreshSession None])
  | RO_result _ true =>
      if storageKey_throws e then (None, m, [RA_refreshSession None])
      else
        match stored e with
        | Stored_with_token tok =>
            match fallback e with
            | RO_result (Some r) false =>
                if setSession_throws e
                then (None, m, [RA_refreshSession None;
                                RA_refreshSession (Some tok); RA_setSession r])
                else (Some r, m, [RA_refreshSession None;
                                  RA_refreshSession (Some tok); RA_setSession r])
            | _ => (None, m, [RA_refreshSession None; RA_refreshSession (Some tok)])
            end
        | _ => (None, m, [RA_refreshSession None])
        end
  | RO_result (Some s) false =>
      (Some s, invalidateCache m, [RA_refreshSession None; RA_setSession s])
  | RO_result None false => (None, m, [RA_refreshSession None])
  end.


(** [refreshSession] up to and including the assignment of
    [this.refreshPromise]: the promise the caller awaits (a joining caller
    returns it as it is). *)
Definition refreshSession_enter (w : World) : Handle * World :=
  let m := mgr w in
  match isRefreshing m, refreshPromise m with
  | true, Some p => (p, w)
  | _, _ =>
      let h := next_handle w in
      (h, {| mgr := set_refresh true (Some h) m;
             next_handle := S h;
             validations := validations w;
             refreshes := (refreshes w ++ [h])%list |})
  end.






(** The primary refresh fails, a stored refresh token exists and the retry
    with it succeeds. *)
Definition fallback_env : RefreshEnv :=
  {| primary := RO_result None true; storageKey_throws := false;
     stored := Stored_with_token "stored-rt";
     fallback := RO_result (Some (sample_session "new")) false;
     setSession_throws := false |}.

Definition cached_manager : Manager :=
  set_validation (Some 7%nat) 1000 initial_manager.

(** ** Listener fan-out *)

(** How the promise of one listener call settles: after how many ticks, and
    whether it rejects (a listener that throws synchronously rejects at 0). *)
Record Settled := mkSettled { at_tick : nat; rejects : bool }.

Definition Listener := SessionChangeEvent -> Settled.

(** The [async listener => { try { await listener(event) } catch { log } }]
    wrapper: settles when the listener does, never rejects; the second
    component is the error it logged, if any. *)
Definition guarded (ev : SessionChangeEvent) (l : Listener) : Settled * bool :=
  ({| at_tick := at_tick (l ev); rejects := false |}, rejects (l ev)).

(** [Promise.all]: rejects as soon as one input rejects, otherwise fulfils
    when the last input has. *)
Fixpoint promise_all (ps : list Settled) : Settled :=
  match ps with
  | [] => {| at_tick := 0; rejects := false |}
  | p :: rest =>
      let r := promise_all rest in
      match rejects p, rejects r with
      | false, false => {| at_tick := Nat.max (at_tick p) (at_tick r); rejects := false |}
      | true, false => p
      | false, true => r
      | true, true => {| at_tick := Nat.min (at_tick p) (at_tick r); rejects := true |}
      end
  end.

Record Publication := mkPublication {
  invoked : list (Listener * SessionChangeEvent);  (* the listener calls made *)
  logged : nat;                                    (* errors written to the console *)
  outcome : Settled                                (* how [notifySessionChange] settles *)
}.

Definition notifySessionChange (ls : list Listener) (ev : SessionChangeEvent)
    : Publication :=
  let runs := map (guarded ev) ls in
  {| invoked := map (fun l => (l, ev)) ls;
     logged := List.length (filter snd runs);
     outcome := promise_all (map fst runs) |}.

(** ** Storage *)

Definition Storage := list (string * string).

Definition removeItems (p : string -> bool) (st : Storage) : Storage :=
  filter (fun kv => negb (p (fst kv))) st.

(** A namespace of the storage manager: a user, and under it either the
    user-level namespace ([None]) or the namespace of one tenant. *)
Record Scope := mkScope { scope_user : string; scope_tenant : option string }.

Record Entry := mkEntry { entry_scope : Scope; entry_key : string; entry_value : string }.

Definition opt_string_eqb (a b : option string) : bool :=
  match a, b with
  | Some x, Some y => String.eqb x y
  | None, None => true
  | _, _ => false
  end.

Definition scope_eqb (a b : Scope) : bool :=
  String.eqb (scope_user a) (scope_user b)
  && opt_string_eqb (scope_tenant a) (scope_tenant b).

Definition tenant_scope (c : SessionContext) : Scope :=
  {| scope_user := user_id c; scope_tenant := Some (tenant_id c) |}.

(** Modelled from the spec: [storageManager.remove(key, { context })] is not
    among the source files; section 6 gives the storage [remove(key, {scope})],
    removal of one key under one scope. *)
Definition sm_remove (key : string) (sc : Scope) (es : list Entry) : list Entry :=
  filter (fun e => negb (scope_eqb (entry_scope e) sc && String.eqb (entry_key e) key)) es.

(** Modelled from the spec: [storageManager.clearUserData(context)] is not
    among the source files; section 4.5 has it purge every key under that
    user's namespace, tenant-scoped sub-keys included. *)
Definition sm_clearUserData (c : SessionContext) (es : list Entry) : list Entry :=
  filter (fun e => negb (String.eqb (scope_user (entry_scope e)) (user_id c))) es.

Inductive Health := healthy | warning | critical | corrupted.

Inductive Call :=
| Call_clearAll
| Call_signOut
| Call_healthCheck (autoFix : bool)
| Call_clearUserData (c : SessionContext)
| Call_remove (key : string) (sc : Scope)
| Call_setContext (c : SessionContext)
| Call_clearContext
| Call_set (key : string) (c : SessionContext).

(** The browser and the collaborators as the manager sees them. *)
Record Env := mkEnv {
  manager : Manager;
  localStorage : Storage;
  sessionStorage : Storage;
  managed : list Entry;                 (* the storage manager's scoped data *)
  published : list SessionChangeEvent;  (* events handed to [notifySessionChange] *)
  calls : list Call                     (* collaborator calls, oldest first *)
}.

(** What the collaborators answer during one operation. *)
Record Oracle := mkOracle {
  o_detect_getSession : option (option Session);
                                            (* [getSession] in the corruption check *)
  o_getSession : option (option Session);   (* [None]: [getSession] throws *)
  o_health : option Health;                 (* [None]: the health check throws *)
  o_signOut_throws : bool;
  o_now : Z;                                (* [Date.now()] for time stamps *)
  o_t1 : Z; o_t2 : Z; o_t3 : Z              (* the readings of [createSessionContext] *)
}.

Definition upd (m : Manager) (ls : Storage) (ss : Storage) (es : list Entry)
    (evs : list SessionChangeEvent) (cs : list Call) (e : Env) : Env :=
  {| manager := m; localStorage := ls; sessionStorage := ss; managed := es;
     published := (published e ++ evs)%list; calls := (calls e ++ cs)%list |}.

(** [clearAuthState] *)
Definition auth_key (k : string) : bool :=
  JsString.includes "supabase" k || JsString.includes "auth" k
  || JsString.includes "token" k || JsString.includes "session" k.

Definition clearAuthState (o : Oracle) (e : Env) : Env :=
  upd (set_refresh false None (invalidateCache (manager e)))
      (removeItems auth_key (localStorage e)) [] (managed e)
      [] [Call_signOut] e.

(** ** Isolation and cleanup engine *)

Inductive Route := Route_user_change | Route_tenant_change | Route_set_context.

(** The branch [initializeSession] takes for a previous and a new context. *)
Definition route (previous : option SessionContext) (new : SessionContext) : Route :=
  match previous with
  | Some prev =>
      if negb (String.eqb (user_id prev) (user_id new)) then Route_user_change
      else if negb (String.eqb (tenant_id prev) (tenant_id new)) then Route_tenant_change
      else Route_set_context
  | None => Route_set_context
  end.

Definition legacyPatterns : list string :=
  ["city_access_cache"; "bootstrap_cache"; "auth_cache"; "user_context"].

Definition legacy_key (k : string) : bool :=
  existsb (fun pat => JsString.includes pat k || JsString.startsWith pat k) legacyPatterns.

Section CleanupEngine.

Variable decode : string -> option Payload.

(** The members of [STORAGE_KEYS] the manager names. *)
Variables SESSION_METADATA CITY_ACCESS BOOTSTRAP_DATA PERMISSIONS_CACHE : string.

(** What [storageManager.set(SESSION_METADATA, context, ...)] and the health
    checker's auto-fix do to the stored data. *)
Variable sm_set : SessionContext -> list Entry -> list Entry.
Variable health_fix : Storage -> Storage.

Definition tenantSpecificKeys : list string :=
  [CITY_ACCESS; BOOTSTRAP_DATA; PERMISSIONS_CACHE].

(** The [for] loop of [performTenantSpecificCleanup] on the managed data. *)
Definition tenant_cleanup (c : SessionContext) (es : list Entry) : list Entry :=
  fold_left (fun acc key => sm_remove key (tenant_scope c) acc) tenantSpecificKeys es.

Definition performTenantSpecificCleanup (c : SessionContext) (e : Env) : Env :=
  upd (manager e) (localStorage e) (sessionStorage e)
      (tenant_cleanup c (managed e)) []
      (map (fun key => Call_remove key (tenant_scope c)) tenantSpecificKeys) e.

Definition performUserSpecificCleanup (c : SessionContext) (e : Env) : Env :=
  upd (manager e) (localStorage e) (sessionStorage e)
      (sm_clearUserData c (managed e)) [] [Call_clearUserData c] e.

Definition setSessionContext (o : Oracle) (c : SessionContext) (e : Env) : Env :=
  let previousContext := currentContext (manager e) in
  upd (set_context (Some c) (manager e)) (localStorage e) (sessionStorage e)
      (sm_set c (managed e))
      [{| type := match previousContext with Some _ => user_change | None => login end;
          previous_context := previousContext; new_context := Some c;
          cleanup_performed := false; timestamp := o_now o |}]
      [Call_setContext c; Call_set SESSION_METADATA c] e.

Definition publish (ev : SessionChangeEvent) (e : Env) : Env :=
  upd (manager e) (localStorage e) (sessionStorage e) (managed e) [ev] [] e.

Definition handleUserChange (o : Oracle) (prev new : SessionContext) (e : Env) : Env :=
  publish {| type := user_change; previous_context := Some prev;
             new_context := Some new; cleanup_performed := true;
             timestamp := o_now o |}
          (setSessionContext o new (performUserSpecificCleanup prev e)).

Definition handleTenantChange (o : Oracle) (prev new : SessionContext) (e : Env) : Env :=
  publish {| type := tenant_change; previous_context := Some prev;
             new_context := Some new; cleanup_performed := true;
             timestamp := o_now o |}
          (setSessionContext o new (performTenantSpecificCleanup prev e)).

(** [clearSessionComplete] up to its first suspension.  [None]: the guard
    was set and the call returned at once; [Some prev]: the call set the
    guard, cleared the context and the legacy keys and is suspended in
    [performComprehensiveCleanup], holding [previousContext = prev].  The
    [clearUserData] of step 1 is guarded by [this.currentContext], which the
    caller has just set to null, so it is not reached. *)
Definition clearSessionComplete_enter (e : Env)
    : option (option SessionContext) * Env :=
  if isCleanupInProgress (manager e) then (None, e)
  else
    (Some (currentContext (manager e)),
     upd (set_context None (set_cleanup true (manager e)))
         (removeItems legacy_key (localStorage e)) (sessionStorage e)
         (managed e) [] [Call_clearContext] e).

(** The rest of [clearSessionComplete]: health check with auto-fix, provider
    sign-out (both skipped when the health check throws), the logout event,
    and the [finally] that lowers the guard. *)
Definition clearSessionComplete_resume (o : Oracle)
    (prev : option SessionContext) (e : Env) : Env :=
  let e1 :=
    match o_health o with
    | None => upd (manager e) (localStorage e) (sessionStorage e) (managed e)
                  [] [Call_healthCheck true] e
    | Some _ =>
        clearAuthState o
          (upd (manager e) (health_fix (localStorage e)) (sessionStorage e)
               (managed e) [] [Call_healthCheck true] e)
    end in
  let e2 := publish {| type := logout; previous_context := prev;
                       new_context := None; cleanup_performed := true;
                       timestamp := o_now o |} e1 in
  upd (set_cleanup false (manager e2)) (localStorage e2) (sessionStorage e2)
      (managed e2) [] [] e2.

Definition clearSessionComplete (o : Oracle) (e : Env) : Env :=
  match clearSessionComplete_enter e with
  | (None, e1) => e1
  | (Some prev, e1) => clearSessionComplete_resume o prev e1
  end.

(** [detectSessionCorruption] *)
Definition sessionKeys (st : Storage) : list string :=
  filter (JsString.includes SESSION_METADATA) (map fst st).

Definition detectSessionCorruption (o : Oracle) (e : Env) : bool :=
  if (3 <? List.length (sessionKeys (localStorage e)))%nat then true
  else
    match o_detect_getSession o with
    | None => true
    | Some s =>
        let mismatch :=
          match s, currentContext (manager e) with
          | Some s', Some c => negb (String.eqb (id (user s')) (user_id c))
          | _, _ => false
          end in
        if mismatch then true
        else
          match o_health o with
          | None => true
          | Some critical => true
          | Some corrupted => true
          | Some _ => false
          end
    end.

(** [performEmergencyCleanup].  Modelled from the spec:
    [storageManager.clearAll()] is not among the source files; section 4.5
    has it wipe all storage, unscoped. *)
Definition performEmergencyCleanup (o : Oracle) (e : Env) : Env :=
  let e1 := upd (manager e) [] (sessionStorage e) [] [] [Call_clearAll] e in
  let e2 := clearAuthState o e1 in
  let e3 := publish {| type := cleanup;
                       previous_context := currentContext (manager e2);
                       new_context := None; cleanup_performed := true;
                       timestamp := o_now o |} e2 in
  upd (set_context None (manager e3)) (localStorage e3) (sessionStorage e3)
      (managed e3) [] [] e3.

(** [initializeSession]: the context returned and the world afterwards. *)
Definition initializeSession (o : Oracle) (e : Env) : option SessionContext * Env :=
  if detectSessionCorruption o e then (None, performEmergencyCleanup o e)
  else
    match o_getSession o with
    | None => (None, performEmergencyCleanup o e)
    | Some None => (None, clearSessionComplete o e)
    | Some (Some s) =>
        let newContext := createSessionContext decode s (o_t1 o) (o_t2 o) (o_t3 o) in
        let e1 :=
          match currentContext (manager e), route (currentContext (manager e)) newContext with
          | Some prev, Route_user_change => handleUserChange o prev newContext e
          | Some prev, Route_tenant_change => handleTenantChange o prev newContext e
          | _, _ => setSessionContext o newContext e
          end in
        (currentContext (manager e1), e1)
    end.

End CleanupEngine.

(** The number of attempts, from [attempt] on, that throw before the first
    one that returns (at most [remaining]). *)
Fixpoint leading_failures (env : nat -> AttemptEnv) (remaining attempt : nat) : nat :=
  match remaining with
  | O => O
  | S remaining' =>
      match fst (attempt_body (env attempt)) with
      | inl _ => S (leading_failures env remaining' (S attempt))
      | inr _ => O
      end
  end.

Definition is_sleep (a : Action) : bool :=
  match a with Act_sleep _ => true | _ => false end.

(** ** Sample data *)

Definition sample_context (u t : string) : SessionContext :=
  {| user_id := u; tenant_id := t; ctx_email := "u@example.com";
     session_id := "session_u_0"; login_timestamp := 0; last_activity := 0 |}.

Definition sample_event : SessionChangeEvent :=
  {| type := logout; previous_context := None; new_context := None;
     cleanup_performed := true; timestamp := 0 |}.

(** A listener that throws at once, and one that finishes after three ticks. *)
Definition raising_listener : Listener :=
  fun _ => {| at_tick := 0; rejects := true |}.

Definition quiet_listener : Listener :=
  fun _ => {| at_tick := 3; rejects := false |}.

Definition sample_oracle : Oracle :=
  {| o_detect_getSession := Some None; o_getSession := Some None;
     o_health := Some healthy; o_signOut_throws := false;
     o_now := 10; o_t1 := 11; o_t2 := 12; o_t3 := 13 |}.

(** User u1 is logged in under tenant t1; the storage manager holds two
    tenant-scoped caches of t1 and one user-level preference. *)
Definition logged_in_env : Env :=
  {| manager := set_context (Some (sample_context "u1" "t1")) initial_manager;
     localStorage := [("city_access_cache", "x"); ("theme", "dark")];
     sessionStorage := [];
     managed :=
       [ {| entry_scope := mkScope "u1" (Some "t1"); entry_key := "city_access";
            entry_value := "a" |};
         {| entry_scope := mkScope "u1" (Some "t1"); entry_key := "permissions";
            entry_value := "b" |};
         {| entry_scope := mkScope "u1" None; entry_key := "probe";
            entry_value := "c" |} ];
     published := []; calls := [] |}.

(** Four keys of the browser storage contain the session-metadata key. *)
Definition corrupt_env : Env :=
  {| manager := set_context (Some (sample_context "u1" "t1")) initial_manager;
     localStorage := [("a:session_metadata", "1"); ("b:session_metadata", "2");
                      ("c:session_metadata", "3"); ("d:session_metadata", "4");
                      ("theme", "dark")];
     sessionStorage := [("k", "v")];
     managed := managed logged_in_env;
     published := []; calls := [] |}.

(** A storage manager whose [set] writes the context under the user-level
    namespace, and a health checker that repairs nothing. *)
Definition sample_sm_set (c : SessionContext) (es : list Entry) : list Entry :=
  ({| entry_scope := mkScope (user_id c) None; entry_key := "session_metadata";
      entry_value := session_id c |} :: es)%list.

Definition sample_health_fix (st : Storage) : Storage := st.


(** Attempt 1 finds the session and the probe throws; attempt 2 succeeds. *)
Definition flaky_probe (_ : Handle) (n : nat) : AttemptEnv :=
  if (n <? 2)%nat then probe_throws "net" else probe_ok.

Definition world_after_first_call : World :=
  snd (validateSession 1000 1000 initial_world).

(** ** Entry points built on validation, refresh and cleanup *)

Definition with_manager (m : Manager) (e : Env) : Env :=
  {| manager := m; localStorage := localStorage e;
     sessionStorage := sessionStorage e; managed := managed e;
     published := published e; calls := calls e |}.


(** [this.currentContext.last_activity = Date.now()] *)
Definition touch (t : Z) (c : SessionContext) : SessionContext :=
  {| user_id := user_id c; tenant_id := tenant_id c; ctx_email := ctx_email c;
     session_id := session_id c; login_timestamp := login_timestamp c;
     last_activity := t |}.

(** [updateActivity], [t] being [Date.now()]. *)
Definition updateActivity (t : Z) (e : Env) : Env :=
  match currentContext (manager e) with
  | Some c => with_manager (set_context (Some (touch t c)) (manager e)) e
  | None => e
  end.

(** One firing of the interval callback of [initializeSessionMonitoring],
    [t] being [Date.now()]. *)
Definition sessionMonitor_tick (health_fix : Storage -> Storage) (t : Z)
    (o : Oracle) (e : Env) : Env :=
  match currentContext (manager e) with
  | Some c =>
      if SESSION_TIMEOUT <? t - last_activity c
      then clearSessionComplete health_fix o e
      else e
  | None => e
  end.



(** The calls of [this.refreshSession()] among the actions of a validation. *)
Definition refresh_requests (l : list Action) : nat :=
  List.length (filter (fun a => match a with Act_refreshSession => true
                                       | _ => false end) l).

Definition sum_Z (l : list Z) : Z := fold_right Z.add 0 l.

Definition count_char (c : ascii) (s : string) : nat :=
  List.length (filter (Ascii.eqb c) (list_ascii_of_string s)).

(** ** Sidebar permissions *)

Record Permission := mkPermission { perm_section : string; perm_action : string }.

(** The part of the user object [hasPermission] reads: [permissions] is
    [None] when the property is missing, [role] is
    [user.app_metadata?.role]. *)
Record NavUser := mkNavUser {
  permissions : option (list Permission);
  isAdmin : bool;
  role : option string
}.

Definition known_action (a : string) : bool :=
  String.eqb a "read" || String.eqb a "*" || String.eqb a "create"
  || String.eqb a "update" || String.eqb a "delete".

Definition hasPermission (u : option NavUser) (sec : string) : bool :=
  match u with
  | None => false
  | Some u' =>
      match permissions u' with
      | None => false
      | Some ps =>
          if isAdmin u' || opt_string_eqb (role u') (Some "admin") then true
          else existsb (fun p => (String.eqb (perm_section p) sec
                                  || String.eqb (perm_section p) "*")
                                 && known_action (perm_action p)) ps
      end
  end.

Record NavItem := mkNavItem {
  nav_name : string; nav_href : string; nav_section : string; alwaysShow : bool
}.

Definition nav_items : list NavItem :=
  [ mkNavItem "Dashboard" "/dashboard" "dashboard" true;
    mkNavItem "Properties" "/properties" "properties" false;
    mkNavItem "Reservations" "/reservations" "reservations" false;
    mkNavItem "Cleaning" "/cleaning" "cleaning" false ].

Definition getFilteredNavigation (u : option NavUser) : list NavItem :=
  filter (fun item => alwaysShow item || hasPermission u (nav_section item)) nav_items.

(** ** Tenant enrichment of the auth context *)

Definition truthy_opt (a : option string) : bool :=
  match a with Some s => JsString.truthy s | None => false end.

(** [enrichUserWithTenant]: the [tenant_id] it stores on the user; [jwt] is
    what [extractTenantFromSession(session)] returned ([None]: null). *)
Definition enrichUserWithTenant (jwt : option string) (u : User) : option string :=
  let t1 := if truthy_opt jwt then jwt else None in
  let t2 := if negb (truthy_opt t1) && truthy_opt (app_tenant u)
            then app_tenant u else t1 in
  if negb (truthy_opt t2) && truthy_opt (user_tenant u)
  then user_tenant u else t2.

(** [enrichUserFallback] *)
Definition enrichUserFallback (u : User) : option string :=
  if truthy_opt (app_tenant u) then app_tenant u
  else if truthy_opt (user_tenant u) then user_tenant u
  else None.

(** ** Activity log: display name of the acting user *)

Record UserBrief := mkUserBrief { brief_name : option string; brief_email : option string }.

(** The [user_name] computed for a log row by [fetchLogs] and [exportLogs]:
    [created] is [log.created_by_name], [u] is [userMap.get(log.user_id)]. *)
Definition log_user_name (created : option string) (u : option UserBrief) : string :=
  JsString.opt_or created
    match u with
    | None => "System"
    | Some b =>
        JsString.opt_or (brief_name b)
          match brief_email b with
          | Some m => if JsString.truthy m
                      then hd EmptyString (JsString.split "@"%char m)
                      else "System"
          | None => "System"
          end
    end.

Definition wellformed_validation (v : SessionValidation) : Prop :=
  (isValid v = true /\ (exists s, session v = Some s) /\ error v = None) \/
  (isValid v = false /\ session v = None /\
   exists m, error v = Some m /\ m <> "").

Definition expiring_attempt : AttemptEnv :=
  {| gs := GS_session (Some {| access_token := "tok"; refresh_token := "r";
                               expires_at := Some 100; user := sample_user |});
     now := 50000; gu := GU_result (Some sample_user) None;
     refreshed := Some (sample_session "new") |}.

Definition primary_env : RefreshEnv :=
  {| primary := RO_result (Some (sample_session "new")) false;
     storageKey_throws := false; stored := Stored_absent;
     fallback := RO_rejects; setSession_throws := true |}.

Definition throwing_health_oracle : Oracle :=
  {| o_detect_getSession := Some None; o_getSession := Some None;
     o_health := None; o_signOut_throws := false;
     o_now := 10; o_t1 := 11; o_t2 := 12; o_t3 := 13 |}.

(** The provider reports a session of user u1 whose token carries the claim
    tenant-a; the storage is healthy. *)
Definition session_oracle : Oracle :=
  {| o_detect_getSession := Some (Some (sample_session "h.claimA.s"));
     o_getSession := Some (Some (sample_session "h.claimA.s"));
     o_health := Some healthy; o_signOut_throws := false;
     o_now := 10; o_t1 := 11; o_t2 := 12; o_t3 := 13 |}.

Definition env_with_context (c : option SessionContext) : Env :=
  with_manager (set_context c initial_manager) logged_in_env.


(** * Properties *)

(** ** Identity context resolver *)

Lemma mock_token_not_three_part : three_part mock_token = false.
Proof. reflexivity. Qed.

Lemma tenant_from_metadata_chain (u : User) :
  tenant_from_metadata u = first_present [app_tenant u; user_tenant u].
Proof.
  unfold tenant_from_metadata, JsString.opt_or, JsString.or_else; simpl.
  destruct (app_tenant u) as [a|]; destruct (user_tenant u) as [b|];
    try destruct (JsString.truthy a); try destruct (JsString.truthy b);
    reflexivity.
Qed.

(** C10: a session whose access token is the literal mock-token-123 gets
    tenant_id tenant-a, whatever the payload decoder and the application-level
    and user-level metadata hold. *)
Theorem mock_token_tenant (decode : string -> option Payload) (s : Session)
    (t1 t2 t3 : Z) :
  access_token s = mock_token ->
  tenant_id (createSessionContext decode s t1 t2 t3) = "tenant-a".
Proof.
  intros H. simpl. unfold resolve_tenant, tenant_from_token.
  rewrite H, mock_token_not_three_part. reflexivity.
Qed.

Lemma mock_token_tenant_witness :
  access_token (sample_session mock_token) = mock_token /\
  tenant_id (createSessionContext sample_decode (sample_session mock_token) 1 2 3)
  = "tenant-a".
Proof.
  split; [reflexivity | apply (mock_token_tenant sample_decode); reflexivity].
Defined.

(** C4, as stated, fails: with the mock token the payload carries no claim
    and the application-level metadata name tenant-b, yet the resolver
    answers tenant-a, not the value of the ordered fallback. *)
Lemma resolve_tenant_not_ordered_fallback :
  ~ (forall decode s, resolve_tenant decode s = spec_tenant decode s).
Proof.
  intros H. specialize (H sample_decode (sample_session mock_token)).
  vm_compute in H. discriminate H.
Qed.

(** C4, amended: a three-part token whose payload decodes with a non-empty
    tenant_id claim yields that claim, whatever the metadata say; a three-part
    token whose payload fails to decode yields the application-level metadata
    value, else the user-level one, else the empty string; the mock token
    yields tenant-a. *)
Theorem resolve_tenant_cases (decode : string -> option Payload) (s : Session)
    (t1 t2 t3 : Z) :
  let tok := access_token s in
  let ctx := createSessionContext decode s t1 t2 t3 in
  (forall c, three_part tok = true ->
             decode (payload_segment tok) = Some (PayloadValue (Some c)) ->
             c <> "" -> tenant_id ctx = c) /\
  (three_part tok = true ->
   decode (payload_segment tok) = None \/
   decode (payload_segment tok) = Some PayloadNull ->
   tenant_id ctx = first_present [app_tenant (user s); user_tenant (user s)]) /\
  (tok = mock_token -> tenant_id ctx = "tenant-a").
Proof.
  cbv zeta. repeat split.
  - intros c H3 Hd Hc. simpl. unfold resolve_tenant, tenant_from_token.
    rewrite H3, Hd. simpl. unfold JsString.or_else.
    destruct c; [contradiction | reflexivity].
  - intros H3 Hd. rewrite <- tenant_from_metadata_chain.
    simpl. unfold resolve_tenant, tenant_from_token. rewrite H3.
    destruct Hd as [Hd | Hd]; rewrite Hd; reflexivity.
  - intros H. simpl. unfold resolve_tenant, tenant_from_token.
    rewrite H, mock_token_not_three_part. reflexivity.
Qed.

Lemma resolve_tenant_cases_witness :
  tenant_id (createSessionContext sample_decode (sample_session "h.claimA.s") 1 2 3)
  = "tenant-a" /\
  tenant_id (createSessionContext sample_decode (sample_session "h.null.s") 1 2 3)
  = "tenant-b" /\
  tenant_id (createSessionContext sample_decode (sample_session mock_token) 1 2 3)
  = "tenant-a".
Proof.
  split; [| split].
  - apply (proj1 (resolve_tenant_cases sample_decode (sample_session "h.claimA.s") 1 2 3));
      [reflexivity | reflexivity | discriminate].
  - apply (proj1 (proj2 (resolve_tenant_cases sample_decode (sample_session "h.null.s") 1 2 3)));
      [reflexivity | right; reflexivity].
  - apply (proj2 (proj2 (resolve_tenant_cases sample_decode (sample_session mock_token) 1 2 3))).
    reflexivity.
Defined.

(** ** Retried validation *)

Lemma delays_app (l1 l2 : list Action) :
  delays (l1 ++ l2) = (delays l1 ++ delays l2)%list.
Proof. unfold delays. apply flat_map_app. Qed.

Lemma attempt_body_actions (a : AttemptEnv) :
  delays (snd (attempt_body a)) = [] /\
  exists l x, snd (attempt_body a) = (l ++ [x])%list /\ is_sleep x = false.
Proof.
  unfold attempt_body.
  destruct (gs a) as [e|e|[s|]]; simpl;
    try (split; [reflexivity | exists []; eexists; split; reflexivity]).
  destruct (match expires_at s with Some _ => _ | None => _ end).
  - destruct (refreshed a); simpl;
      (split; [reflexivity | exists [Act_getSession]; eexists; split; reflexivity]).
  - destruct (gu a) as [e|u [ue|]]; simpl.
    + split; [reflexivity | exists [Act_getSession]; eexists; split; reflexivity].
    + destruct (refreshed a); simpl;
        (split; [reflexivity
                | exists [Act_getSession; Act_getUser (access_token s)];
                  eexists; split; reflexivity]).
    + destruct u; [| destruct (refreshed a)]; simpl;
        (split; [reflexivity |]);
        [ exists [Act_getSession]
        | exists [Act_getSession; Act_getUser (access_token s)]
        | exists [Act_getSession; Act_getUser (access_token s)] ];
        eexists; split; reflexivity.
Qed.

Lemma last_app_single (l1 l2 : list Action) (x d : Action) :
  last (l1 ++ l2 ++ [x]) d = x.
Proof. rewrite app_assoc. apply last_last. Qed.




(** ** Validation cache *)











(** ** Refresh coordinator *)




(** On the primary path a refreshed credential comes with an emptied
    validation cache. *)
Lemma performRefresh_primary_invalidates (e : RefreshEnv) (m : Manager) (s : Session) :
  primary e = RO_result (Some s) false ->
  performRefresh e m =
  (Some s, invalidateCache m, [RA_refreshSession None; RA_setSession s]).
Proof. intros H. unfold performRefresh. rewrite H. reflexivity. Qed.




(** C3 fails on the stored-token path: the primary refresh fails, the retry
    with the stored refresh token returns a credential, and the validation
    cache is still there when the refresh returns (the promise slot is not
    null and lastValidationTime is not 0). *)
Theorem fallback_refresh_keeps_cache :
  let out := performRefresh fallback_env cached_manager in
  fst (fst out) = Some (sample_session "new") /\
  sessionValidationPromise (snd (fst out)) = Some 7%nat /\
  lastValidationTime (snd (fst out)) = 1000 /\
  lastValidationTime (snd (fst out)) <> 0.
Proof. cbv zeta. repeat split. discriminate. Qed.

(** ** Listener fan-out *)

Lemma promise_all_guarded (ev : SessionChangeEvent) (ls : list Listener) :
  rejects (promise_all (map fst (map (guarded ev) ls))) = false /\
  forall l, In l ls ->
            (at_tick (l ev) <= at_tick (promise_all (map fst (map (guarded ev) ls))))%nat.
Proof.
  induction ls as [| l0 rest [IHr IHt]]; simpl.
  - split; [reflexivity | intros l []].
  - rewrite IHr. simpl. split; [reflexivity |].
    intros l [-> | Hin].
    + apply Nat.le_max_l.
    + etransitivity; [apply IHt; exact Hin | apply Nat.le_max_r].
Qed.

(** Without the per-listener guard the fan-out would reject with the first
    failing listener. *)
Lemma promise_all_unguarded_rejects (ps : list Settled) (p : Settled) :
  In p ps -> rejects p = true -> rejects (promise_all ps) = true.
Proof.
  induction ps as [| q rest IH]; simpl; [intros [] |].
  intros [-> | Hin] Hp.
  - rewrite Hp. destruct (rejects (promise_all rest)); [reflexivity | exact Hp].
  - specialize (IH Hin Hp). rewrite IH.
    destruct (rejects q); [reflexivity | exact IH].
Qed.

(** C9: for every event and every list of registered listeners, each
    listener is invoked with the event whether or not another listener raises;
    the publication itself never rejects; and it settles no earlier than the
    last listener call does. *)
Theorem notifySessionChange_isolates (ls : list Listener) (ev : SessionChangeEvent) :
  let pub := notifySessionChange ls ev in
  (forall l, In l ls -> In (l, ev) (invoked pub)) /\
  List.length (invoked pub) = List.length ls /\
  rejects (outcome pub) = false /\
  (forall l, In l ls -> (at_tick (l ev) <= at_tick (outcome pub))%nat).
Proof.
  cbv zeta. unfold notifySessionChange. cbn [invoked outcome].
  destruct (promise_all_guarded ev ls) as [Hr Ht].
  repeat split.
  - intros l Hin. apply (in_map (fun l0 => (l0, ev))). exact Hin.
  - apply length_map.
  - exact Hr.
  - exact Ht.
Qed.

Lemma notifySessionChange_isolates_witness :
  In (quiet_listener, sample_event)
     (invoked (notifySessionChange [raising_listener; quiet_listener] sample_event)) /\
  (at_tick (quiet_listener sample_event)
   <= at_tick (outcome (notifySessionChange [raising_listener; quiet_listener]
                          sample_event)))%nat.
Proof.
  pose proof (notifySessionChange_isolates [raising_listener; quiet_listener]
                sample_event) as H.
  cbv zeta in H. destruct H as [Hi [_ [_ Ht]]].
  split; [apply Hi | apply Ht]; right; left; reflexivity.
Defined.

(** ** Isolation and cleanup engine *)






Lemma handleTenantChange_managed (SESSION_METADATA CITY_ACCESS BOOTSTRAP_DATA
    PERMISSIONS_CACHE : string) (sm_set : SessionContext -> list Entry -> list Entry)
    (o : Oracle) (prev new : SessionContext) (e : Env) :
  managed (handleTenantChange SESSION_METADATA CITY_ACCESS BOOTSTRAP_DATA
             PERMISSIONS_CACHE sm_set o prev new e)
  = sm_set new (tenant_cleanup CITY_ACCESS BOOTSTRAP_DATA PERMISSIONS_CACHE prev
                  (managed e)).
Proof. reflexivity. Qed.

(** More than three keys containing the session-metadata key are reported as
    corruption, whatever the provider and the health checker answer. *)
Lemma many_session_keys_detected (SESSION_METADATA : string) (o : Oracle) (e : Env) :
  (4 <= List.length (sessionKeys SESSION_METADATA (localStorage e)))%nat ->
  detectSessionCorruption SESSION_METADATA o e = true.
Proof.
  intros H. unfold detectSessionCorruption.
  destruct (Nat.ltb_spec 3 (List.length (sessionKeys SESSION_METADATA (localStorage e))));
    [reflexivity | lia].
Qed.

(** C6, amended: when corruption is detected (four or more keys containing
    the session-metadata key are enough), initializeSession returns null
    after the emergency cleanup: clearAll is invoked and the storage is
    empty, the provider is signed out, exactly one event is published, of
    type cleanup with cleanup_performed set and the previous context
    attached, and the live context is cleared. *)
Theorem corruption_forces_emergency_cleanup
    (decode : string -> option Payload)
    (SESSION_METADATA CITY_ACCESS BOOTSTRAP_DATA PERMISSIONS_CACHE : string)
    (sm_set : SessionContext -> list Entry -> list Entry)
    (health_fix : Storage -> Storage) (o : Oracle) (e : Env) :
  detectSessionCorruption SESSION_METADATA o e = true ->
  let out := initializeSession decode SESSION_METADATA CITY_ACCESS BOOTSTRAP_DATA
               PERMISSIONS_CACHE sm_set health_fix o e in
  fst out = None /\
  calls (snd out) = (calls e ++ [Call_clearAll; Call_signOut])%list /\
  localStorage (snd out) = [] /\
  sessionStorage (snd out) = [] /\
  managed (snd out) = [] /\
  currentContext (manager (snd out)) = None /\
  published (snd out) =
    (published e ++
     [{| type := cleanup; previous_context := currentContext (manager e);
         new_context := None; cleanup_performed := true;
         timestamp := o_now o |}])%list.
Proof.
  intros H. cbv zeta. unfold initializeSession. rewrite H. cbn.
  rewrite <- !app_assoc, !app_nil_r. repeat split.
Qed.

(** C6, as stated, fails: on a storage with four session-metadata keys
    initializeSession returns null and wipes the storage, but the one event
    it publishes has type cleanup; no corruption_detected event is
    published. *)
Lemma corruption_publishes_cleanup_event :
  let out := initializeSession sample_decode "session_metadata" "city_access"
               "bootstrap_data" "permissions" sample_sm_set sample_health_fix
               sample_oracle corrupt_env in
  fst out = None /\
  In Call_clearAll (calls (snd out)) /\
  map type (published (snd out)) = [cleanup] /\
  ~ In corruption_detected (map type (published (snd out))).
Proof.
  cbv zeta. split; [reflexivity |]. split; [left; reflexivity |].
  split; [reflexivity |].
  intros [H | []]. discriminate H.
Qed.

Lemma corruption_forces_emergency_cleanup_witness :
  (4 <= List.length (sessionKeys "session_metadata" (localStorage corrupt_env)))%nat /\
  fst (initializeSession sample_decode "session_metadata" "city_access"
         "bootstrap_data" "permissions" sample_sm_set sample_health_fix
         sample_oracle corrupt_env) = None.
Proof.
  split; [vm_compute; lia |].
  apply (corruption_forces_emergency_cleanup sample_decode "session_metadata"
           "city_access" "bootstrap_data" "permissions" sample_sm_set
           sample_health_fix sample_oracle corrupt_env).
  reflexivity.
Defined.

(** C7 fails: a second clearSessionComplete issued while the first is
    suspended inside its cleanup purges nothing, but it does not wait either:
    the whole call is over at once, with the world unchanged and the guard of
    the first cleanup still raised. *)
Theorem overlapping_cleanup_returns_at_once :
  let first := clearSessionComplete_enter logged_in_env in
  let e1 := snd first in
  fst first = Some (Some (sample_context "u1" "t1")) /\
  isCleanupInProgress (manager e1) = true /\
  clearSessionComplete_enter e1 = (None, e1) /\
  clearSessionComplete sample_health_fix sample_oracle e1 = e1.
Proof. cbv zeta. repeat split. Qed.

(** * Further properties of the code *)

(** ** Retried validation: results and provider calls *)

Lemma opt_or_nonempty (a : option string) (d : string) :
  d <> "" -> JsString.opt_or a d <> "".
Proof.
  intros Hd. unfold JsString.opt_or, JsString.or_else.
  destruct a as [[| c s] |]; simpl; try exact Hd. discriminate.
Qed.

Lemma attempt_body_wellformed (a : AttemptEnv) (v : SessionValidation) :
  fst (attempt_body a) = inr v -> wellformed_validation v.
Proof.
  unfold attempt_body, wellformed_validation.
  destruct (gs a) as [e|e|[s|]]; simpl; try discriminate.
  - destruct (match expires_at s with Some _ => _ | None => _ end).
    + destruct (refreshed a); simpl; intros [= <-]; simpl.
      * left. repeat split. eexists; reflexivity.
      * right. repeat split. eexists; split; [reflexivity | discriminate].
    + destruct (gu a) as [e|u [ue|]]; simpl; try discriminate.
      * destruct (refreshed a); simpl; intros [= <-]; simpl.
        -- left. repeat split. eexists; reflexivity.
        -- right. repeat split. eexists; split; [reflexivity |].
           apply opt_or_nonempty. discriminate.
      * destruct u; [| destruct (refreshed a)]; simpl; intros [= <-]; simpl.
        -- left. repeat split. eexists; reflexivity.
        -- left. repeat split. eexists; reflexivity.
        -- right. repeat split. eexists; split; [reflexivity | discriminate].
  - intros [= <-]. right. simpl. repeat split.
    eexists; split; [reflexivity | discriminate].
Qed.

Lemma validation_loop_wellformed (env : nat -> AttemptEnv) (remaining attempt : nat)
    (lastError : option JsError) :
  wellformed_validation (fst (validation_loop env remaining attempt lastError)).
Proof.
  revert attempt lastError.
  induction remaining as [| r IH]; intros attempt lastError; simpl.
  - right. repeat split. eexists; split; [reflexivity |].
    apply opt_or_nonempty. discriminate.
  - pose proof (attempt_body_wellformed (env attempt)) as Hb.
    destruct (attempt_body (env attempt)) as [[e|v] acts].
    + specialize (IH (S attempt) (Some e)).
      destruct (validation_loop env r (S attempt) (Some e)) as [v rest].
      exact IH.
    + apply Hb. reflexivity.
Qed.

(** X1: whatever the provider answers, performValidation resolves to a
    well-formed result: a valid one carries a session and no error, an
    invalid one carries no session and a non-empty error message. *)
Theorem performValidation_wellformed (env : nat -> AttemptEnv) :
  let v := fst (performValidation env) in
  (isValid v = true /\ (exists s, session v = Some s) /\ error v = None) \/
  (isValid v = false /\ session v = None /\
   exists m, error v = Some m /\ m <> "").
Proof. apply validation_loop_wellformed. Qed.

(** X2: a session that expires in less than 60 seconds is never probed
    with getUser: the attempt goes to refreshSession and is valid exactly
    when the refresh returned a credential. *)
Theorem expiring_session_is_refreshed (a : AttemptEnv) (s : Session) (exp : Z) :
  gs a = GS_session (Some s) ->
  expires_at s = Some exp ->
  exp <> 0 ->
  exp * 1000 - now a < 60000 ->
  probes (snd (attempt_body a)) = 0%nat /\
  snd (attempt_body a) = [Act_getSession; Act_refreshSession] /\
  fst (attempt_body a) =
    inr (match refreshed a with
         | Some r => valid r
         | None => invalid "Failed to refresh expired token"
         end).
Proof.
  intros Hs He Hz Hlt. unfold attempt_body. rewrite Hs, He.
  destruct (Z.eqb_spec exp 0); [contradiction |].
  destruct (Z.ltb_spec (exp * 1000 - now a) 60000); [| lia].
  simpl. destruct (refreshed a); repeat split.
Qed.

Lemma expiring_session_is_refreshed_witness :
  probes (snd (attempt_body expiring_attempt)) = 0%nat /\
  fst (attempt_body expiring_attempt) = inr (valid (sample_session "new")).
Proof.
  destruct (expiring_session_is_refreshed expiring_attempt
              {| access_token := "tok"; refresh_token := "r";
                 expires_at := Some 100; user := sample_user |} 100)
    as [H1 [_ H3]]; try reflexivity; try discriminate.
  split; [exact H1 | exact H3].
Defined.

(** X3: a session with no expiry, an expiry of 0, or at least 60 seconds
    left is probed exactly once per attempt, with its own access token. *)
Theorem live_session_is_probed (a : AttemptEnv) (s : Session) :
  gs a = GS_session (Some s) ->
  (expires_at s = None \/ expires_at s = Some 0 \/
   exists exp, expires_at s = Some exp /\ 60000 <= exp * 1000 - now a) ->
  probes (snd (attempt_body a)) = 1%nat /\
  In (Act_getUser (access_token s)) (snd (attempt_body a)).
Proof.
  intros Hs He. unfold attempt_body. rewrite Hs.
  assert (Hx : match expires_at s with
               | Some exp => negb (exp =? 0) && (exp * 1000 - now a <? 60000)
               | None => false
               end = false).
  { destruct He as [-> | [-> | [exp [-> Hge]]]]; try reflexivity.
    destruct (Z.ltb_spec (exp * 1000 - now a) 60000); [lia |].
    apply andb_false_r. }
  rewrite Hx.
  destruct (gu a) as [e|u [ue|]]; simpl.
  - split; [reflexivity | right; left; reflexivity].
  - destruct (refreshed a); simpl; (split; [reflexivity | right; left; reflexivity]).
  - destruct u; [| destruct (refreshed a)]; simpl;
      (split; [reflexivity | right; left; reflexivity]).
Qed.

Lemma live_session_is_probed_witness :
  probes (snd (attempt_body probe_ok)) = 1%nat.
Proof.
  destruct (live_session_is_probed probe_ok (sample_session "tok")) as [H _];
    [reflexivity | left; reflexivity | exact H].
Defined.

Lemma validation_loop_first_success (env : nat -> AttemptEnv) (v : SessionValidation) :
  forall remaining attempt lastError n,
    leading_failures env remaining attempt = n ->
    (n < remaining)%nat ->
    fst (attempt_body (env (attempt + n)%nat)) = inr v ->
    fst (validation_loop env remaining attempt lastError) = v.
Proof.
  induction remaining as [| r IH]; intros attempt lastError n Hn Hlt Hv; [lia |].
  simpl in *.
  destruct (attempt_body (env attempt)) as [[e|v0] acts] eqn:Eb; simpl in *.
  - destruct n as [| n']; [discriminate Hn |].
    injection Hn as Hn.
    specialize (IH (S attempt) (Some e) n' Hn ltac:(lia)).
    replace (S attempt + n')%nat with (attempt + S n')%nat in IH by lia.
    specialize (IH Hv).
    destruct (validation_loop env r (S attempt) (Some e)) as [v1 rest].
    exact IH.
  - subst n. rewrite Nat.add_0_r, Eb in Hv. simpl in Hv.
    injection Hv as ->. reflexivity.
Qed.

(** X4: performValidation resolves to what the first attempt that does not
    throw returns, valid or invalid: an invalid result such as a missing
    session is not retried. *)
Theorem performValidation_first_success (env : nat -> AttemptEnv) (n : nat)
    (v : SessionValidation) :
  leading_failures env MAX_RETRY_ATTEMPTS 1 = n ->
  (n < MAX_RETRY_ATTEMPTS)%nat ->
  fst (attempt_body (env (S n))) = inr v ->
  fst (performValidation env) = v.
Proof.
  intros Hn Hlt Hv.
  apply (validation_loop_first_success env v MAX_RETRY_ATTEMPTS 1%nat None n Hn Hlt).
  exact Hv.
Qed.

Lemma performValidation_first_success_witness :
  fst (performValidation (flaky_probe 0%nat)) = valid (sample_session "tok").
Proof.
  apply (performValidation_first_success (flaky_probe 0%nat) 1);
    [reflexivity | unfold MAX_RETRY_ATTEMPTS; lia | reflexivity].
Defined.

Lemma delays_backoff_prefix (env : nat -> AttemptEnv) :
  exists k, (k <= 4)%nat /\
            delays (snd (performValidation env)) = map backoff (seq 1 k).
Proof.
  unfold performValidation, MAX_RETRY_ATTEMPTS.
  cbn [validation_loop Nat.ltb Nat.leb].
  destruct (attempt_body_actions (env 1%nat)) as [D1 _].
  destruct (attempt_body_actions (env 2%nat)) as [D2 _].
  destruct (attempt_body_actions (env 3%nat)) as [D3 _].
  destruct (attempt_body_actions (env 4%nat)) as [D4 _].
  destruct (attempt_body_actions (env 5%nat)) as [D5 _].
  destruct (attempt_body (env 1%nat)) as [[e1|v1] a1];
  [destruct (attempt_body (env 2%nat)) as [[e2|v2] a2];
   [destruct (attempt_body (env 3%nat)) as [[e3|v3] a3];
    [destruct (attempt_body (env 4%nat)) as [[e4|v4] a4];
     [destruct (attempt_body (env 5%nat)) as [[e5|v5] a5] | ] | ] | ] | ];
  cbn [fst snd] in *;
  repeat rewrite delays_app;
  repeat match goal with H : delays _ = [] |- _ => rewrite H; clear H end.
  - exists 4%nat. split; [lia | reflexivity].
  - exists 4%nat. split; [lia | reflexivity].
  - exists 3%nat. split; [lia | reflexivity].
  - exists 2%nat. split; [lia | reflexivity].
  - exists 1%nat. split; [lia | reflexivity].
  - exists 0%nat. split; [lia | reflexivity].
Qed.

(** X5: the time performValidation spends in back-off delays is at most
    15000 ms in all, and it makes at most four delays. *)
Theorem performValidation_total_backoff (env : nat -> AttemptEnv) :
  0 <= sum_Z (delays (snd (performValidation env))) <= 15000 /\
  (List.length (delays (snd (performValidation env))) <= 4)%nat.
Proof.
  destruct (delays_backoff_prefix env) as [k [Hk ->]].
  rewrite length_map, length_seq. split; [| exact Hk].
  destruct k as [| [| [| [| [| k]]]]]; try lia; vm_compute; split; discriminate.
Qed.

(** ** Promise handles, cache and refresh slot *)

Lemma refresh_requests_app (l1 l2 : list Action) :
  refresh_requests (l1 ++ l2) = (refresh_requests l1 + refresh_requests l2)%nat.
Proof. unfold refresh_requests. rewrite filter_app, length_app. reflexivity. Qed.

Lemma attempt_body_refresh_requests (a : AttemptEnv) :
  (forall e, fst (attempt_body a) = inl e ->
             refresh_requests (snd (attempt_body a)) = 0%nat) /\
  (refresh_requests (snd (attempt_body a)) <= 1)%nat.
Proof.
  unfold attempt_body, refresh_requests.
  destruct (gs a) as [e|e|[s|]]; simpl; try (split; [reflexivity | lia]).
  destruct (match expires_at s with Some _ => _ | None => _ end).
  - destruct (refreshed a); simpl; (split; [discriminate | lia]).
  - destruct (gu a) as [e|u [ue|]]; simpl.
      * split; [reflexivity | lia].
      * destruct (refreshed a); simpl; (split; [discriminate | lia]).
      * destruct u; [| destruct (refreshed a)]; simpl; (split; [discriminate | lia]).
Qed.

Lemma validation_loop_refresh_requests (env : nat -> AttemptEnv)
    (remaining attempt : nat) (lastError : option JsError) :
  (refresh_requests (snd (validation_loop env remaining attempt lastError)) <= 1)%nat.
Proof.
  revert attempt lastError.
  induction remaining as [| r IH]; intros attempt lastError; simpl.
  - unfold refresh_requests; simpl; lia.
  - destruct (attempt_body_refresh_requests (env attempt)) as [H0 H1].
    destruct (attempt_body (env attempt)) as [[e|v] acts]; simpl in *.
    + specialize (IH (S attempt) (Some e)). specialize (H0 e eq_refl).
      destruct (validation_loop env r (S attempt) (Some e)) as [v rest].
      simpl in *. rewrite !refresh_requests_app, H0.
      assert (refresh_requests (if (attempt <? MAX_RETRY_ATTEMPTS)%nat
                                then [Act_sleep (backoff attempt)] else []) = 0%nat)
        by (destruct (attempt <? MAX_RETRY_ATTEMPTS)%nat; reflexivity).
      lia.
    + exact H1.
Qed.

(** X6: one performValidation asks for a refresh at most once, however
    many attempts it makes: an attempt that throws has not called
    refreshSession, and an attempt that calls it returns. *)
Theorem performValidation_refreshes_once (env : nat -> AttemptEnv) :
  (refresh_requests (snd (performValidation env)) <= 1)%nat /\
  (forall n e, fst (attempt_body (env n)) = inl e ->
               refresh_requests (snd (attempt_body (env n))) = 0%nat).
Proof.
  split.
  - apply validation_loop_refresh_requests.
  - intros n e H. apply (proj1 (attempt_body_refresh_requests (env n)) e H).
Qed.

Lemma performValidation_refreshes_once_witness :
  refresh_requests (snd (attempt_body (probe_throws "net"))) = 0%nat.
Proof.
  apply (proj2 (performValidation_refreshes_once (fun _ => probe_throws "net"))
           1%nat (Some "net")).
  reflexivity.
Defined.

(** X7: after a refresh that succeeds on its primary path, the next
    validateSession starts a new validation at whatever time it is called,
    and leaves that new promise in the cache. *)
Theorem refresh_then_validate_relaunches (e : RefreshEnv) (s : Session)
    (t1 t2 : Z) (w : World) :
  primary e = RO_result (Some s) false ->
  let w1 := with_mgr (snd (fst (performRefresh e (mgr w)))) w in
  fst (validateSession t1 t2 w1) = next_handle w /\
  validations (snd (validateSession t1 t2 w1)) = (validations w ++ [next_handle w])%list /\
  sessionValidationPromise (mgr (snd (validateSession t1 t2 w1))) = Some (next_handle w) /\
  lastValidationTime (mgr (snd (validateSession t1 t2 w1))) = t2.
Proof.
  intros Hp. cbv zeta. rewrite (performRefresh_primary_invalidates e (mgr w) s Hp).
  repeat split.
Qed.

Lemma refresh_then_validate_relaunches_witness :
  fst (validateSession 1001 1001
         (with_mgr (snd (fst (performRefresh primary_env (mgr world_after_first_call))))
            world_after_first_call)) = 1%nat.
Proof.
  apply (refresh_then_validate_relaunches primary_env (sample_session "new")
           1001 1001 world_after_first_call).
  reflexivity.
Defined.

(** X8: performRefresh returns a credential exactly when the primary call
    returned one without error, or the primary call returned an error, the
    storage key could be computed, a stored refresh token exists, the retry
    with it returned a credential without error and persisting it did not
    throw.  A persist failure thus loses the credential on the stored-token
    path only. *)
Theorem performRefresh_result (e : RefreshEnv) (m : Manager) (r : Session) :
  fst (fst (performRefresh e m)) = Some r <->
  primary e = RO_result (Some r) false \/
  ((exists s0, primary e = RO_result s0 true) /\
   storageKey_throws e = false /\
   (exists tok, stored e = Stored_with_token tok) /\
   fallback e = RO_result (Some r) false /\
   setSession_throws e = false).
Proof.
  unfold performRefresh. split.
  - destruct (primary e) as [| [s|] [|]]; simpl; try discriminate.
    + destruct (storageKey_throws e); simpl; try discriminate.
      destruct (stored e); simpl; try discriminate.
      destruct (fallback e) as [| [r0|] [|]]; simpl; try discriminate.
      destruct (setSession_throws e); simpl; try discriminate.
      intros [= ->]. right. repeat split; eexists; reflexivity.
    + intros [= ->]. left. reflexivity.
    + destruct (storageKey_throws e); simpl; try discriminate.
      destruct (stored e); simpl; try discriminate.
      destruct (fallback e) as [| [r0|] [|]]; simpl; try discriminate.
      destruct (setSession_throws e); simpl; try discriminate.
      intros [= ->]. right. repeat split; eexists; reflexivity.
  - intros [Hp | [[s0 Hp] [Hk [[tok Hs] [Hf Hset]]]]]; rewrite Hp.
    + reflexivity.
    + rewrite Hk, Hs, Hf, Hset. destruct s0; reflexivity.
Qed.

(** X9: performRefresh never writes the refresh slot, the live context or
    the cleanup guard; when it returns null it leaves the whole manager,
    validation cache included, as it was. *)
Theorem performRefresh_frame (e : RefreshEnv) (m : Manager) :
  let m' := snd (fst (performRefresh e m)) in
  isRefreshing m' = isRefreshing m /\
  refreshPromise m' = refreshPromise m /\
  currentContext m' = currentContext m /\
  isCleanupInProgress m' = isCleanupInProgress m /\
  (fst (fst (performRefresh e m)) = None -> m' = m).
Proof.
  cbv zeta. unfold performRefresh.
  destruct (primary e) as [| [s|] [|]]; destruct (storageKey_throws e);
    destruct (stored e); destruct (fallback e) as [| [r0|] [|]];
    destruct (setSession_throws e); simpl;
    repeat split; try reflexivity; intros H; try discriminate H; reflexivity.
Qed.

(** ** Clearing the authentication state *)

Lemma removeItems_In (p : string -> bool) (st : Storage) (k v : string) :
  In (k, v) (removeItems p st) <-> In (k, v) st /\ p k = false.
Proof.
  unfold removeItems. rewrite filter_In. simpl. rewrite negb_true_iff. reflexivity.
Qed.

(** X10: after clearAuthState no key of the browser storage contains
    supabase, auth, token or session, every other item is still there, the
    session storage is empty, the provider was signed out, and the
    validation cache and the refresh slot are reset; the live context and
    the cleanup guard are not touched. *)
Theorem clearAuthState_effect (o : Oracle) (e : Env) :
  let e' := clearAuthState o e in
  (forall k v, In (k, v) (localStorage e') ->
               JsString.includes "supabase" k = false /\
               JsString.includes "auth" k = false /\
               JsString.includes "token" k = false /\
               JsString.includes "session" k = false) /\
  (forall k v, In (k, v) (localStorage e) -> auth_key k = false ->
               In (k, v) (localStorage e')) /\
  sessionStorage e' = [] /\
  calls e' = (calls e ++ [Call_signOut])%list /\
  sessionValidationPromise (manager e') = None /\
  lastValidationTime (manager e') = 0 /\
  isRefreshing (manager e') = false /\
  refreshPromise (manager e') = None /\
  currentContext (manager e') = currentContext (manager e) /\
  isCleanupInProgress (manager e') = isCleanupInProgress (manager e).
Proof.
  cbv zeta. unfold clearAuthState, upd. cbn.
  split; [| split; [| repeat split]].
  - intros k v H. apply removeItems_In in H. destruct H as [_ H].
    unfold auth_key in H.
    repeat (apply orb_false_iff in H; destruct H as [H ?]).
    repeat split; assumption.
  - intros k v Hin Hk. apply removeItems_In. split; assumption.
Qed.

(** X11: clearAuthState reopens the refresh slot: a refreshSession call
    made after it, while the refresh started earlier is still in flight,
    starts a second performRefresh instead of joining the first. *)
Theorem clearAuthState_reopens_refresh (o : Oracle) (e : Env) (w : World) :
  isRefreshing (mgr w) = false ->
  manager e = mgr (snd (refreshSession_enter w)) ->
  let w1 := snd (refreshSession_enter w) in
  let w2 := with_mgr (manager (clearAuthState o e)) w1 in
  fst (refreshSession_enter w) = next_handle w /\
  fst (refreshSession_enter w2) = S (next_handle w) /\
  refreshes (snd (refreshSession_enter w2)) =
    (refreshes w ++ [next_handle w; S (next_handle w)])%list.
Proof.
  intros Hr He. cbv zeta. unfold clearAuthState, upd. cbn [manager].
  unfold refreshSession_enter at 1 3 5. rewrite Hr. cbn.
  rewrite <- app_assoc. repeat split.
Qed.

Lemma clearAuthState_reopens_refresh_witness :
  refreshes (snd (refreshSession_enter
                    (with_mgr (manager (clearAuthState sample_oracle
                                          (with_manager
                                             (mgr (snd (refreshSession_enter initial_world)))
                                             logged_in_env)))
                       (snd (refreshSession_enter initial_world)))))
  = [0%nat; 1%nat].
Proof.
  apply (clearAuthState_reopens_refresh sample_oracle
           (with_manager (mgr (snd (refreshSession_enter initial_world))) logged_in_env)
           initial_world); reflexivity.
Defined.


(** ** Complete cleanup, idle timeout and provider events *)

(** X13: a clearSessionComplete that finds the guard down clears the live
    context, publishes exactly one logout event carrying the previous
    context, lowers the guard again, and calls clearContext, the health
    check with auto-fix and, unless the health check throws, the provider
    sign-out; it never calls clearUserData. *)
Theorem clearSessionComplete_logout (health_fix : Storage -> Storage)
    (o : Oracle) (e : Env) :
  isCleanupInProgress (manager e) = false ->
  let e' := clearSessionComplete health_fix o e in
  isCleanupInProgress (manager e') = false /\
  currentContext (manager e') = None /\
  published e' =
    (published e ++
     [{| type := logout; previous_context := currentContext (manager e);
         new_context := None; cleanup_performed := true;
         timestamp := o_now o |}])%list /\
  calls e' =
    (calls e ++ [Call_clearContext; Call_healthCheck true] ++
     match o_health o with Some _ => [Call_signOut] | None => [] end)%list /\
  (forall c, ~ In (Call_clearUserData c)
               ([Call_clearContext; Call_healthCheck true] ++
                match o_health o with Some _ => [Call_signOut] | None => [] end)).
Proof.
  intros Hg. cbv zeta.
  unfold clearSessionComplete, clearSessionComplete_enter. rewrite Hg.
  unfold clearSessionComplete_resume, clearAuthState, publish, upd.
  destruct (o_health o); cbn;
    rewrite ?app_nil_r, <- ?app_assoc; cbn;
    repeat split; try reflexivity;
    intros c Hin; simpl in Hin; intuition discriminate.
Qed.

Lemma clearSessionComplete_logout_witness :
  currentContext (manager (clearSessionComplete sample_health_fix sample_oracle
                             logged_in_env)) = None.
Proof.
  apply (clearSessionComplete_logout sample_health_fix sample_oracle logged_in_env).
  reflexivity.
Defined.

(** X14: when the health check throws during clearSessionComplete, the
    rest of the comprehensive cleanup is skipped: the session storage, the
    validation cache and the refresh slot stay as they were; when it does
    not throw, they are all reset. *)
Theorem clearSessionComplete_health_throws (health_fix : Storage -> Storage)
    (o : Oracle) (e : Env) :
  isCleanupInProgress (manager e) = false ->
  let e' := clearSessionComplete health_fix o e in
  (o_health o = None ->
   sessionStorage e' = sessionStorage e /\
   sessionValidationPromise (manager e') = sessionValidationPromise (manager e) /\
   lastValidationTime (manager e') = lastValidationTime (manager e) /\
   isRefreshing (manager e') = isRefreshing (manager e) /\
   refreshPromise (manager e') = refreshPromise (manager e)) /\
  (o_health o <> None ->
   sessionStorage e' = [] /\
   sessionValidationPromise (manager e') = None /\
   lastValidationTime (manager e') = 0 /\
   isRefreshing (manager e') = false /\
   refreshPromise (manager e') = None).
Proof.
  intros Hg. cbv zeta.
  unfold clearSessionComplete, clearSessionComplete_enter. rewrite Hg.
  unfold clearSessionComplete_resume, clearAuthState, publish, upd.
  destruct (o_health o); cbn; split; intros H; try discriminate H;
    try contradiction; repeat split.
Qed.

Lemma clearSessionComplete_health_throws_witness :
  sessionStorage (clearSessionComplete sample_health_fix throwing_health_oracle
                    corrupt_env) = [("k", "v")] /\
  sessionStorage (clearSessionComplete sample_health_fix sample_oracle
                    corrupt_env) = [].
Proof.
  split.
  - apply (proj1 (clearSessionComplete_health_throws sample_health_fix
                    throwing_health_oracle corrupt_env eq_refl)).
    reflexivity.
  - apply (proj2 (clearSessionComplete_health_throws sample_health_fix
                    sample_oracle corrupt_env eq_refl)).
    discriminate.
Defined.

(** X15: the idle-timeout callback does nothing while the context has been
    idle for at most 24 hours (exactly 24 hours included), and nothing
    while a cleanup is in progress; idle for longer with the guard down, it
    clears the context and publishes one logout event carrying it. *)
Theorem sessionMonitor_timeout (health_fix : Storage -> Storage) (t : Z)
    (o : Oracle) (e : Env) (c : SessionContext) :
  currentContext (manager e) = Some c ->
  let e' := sessionMonitor_tick health_fix t o e in
  (t - last_activity c <= 86400000 -> e' = e) /\
  (isCleanupInProgress (manager e) = true -> e' = e) /\
  (86400000 < t - last_activity c ->
   isCleanupInProgress (manager e) = false ->
   currentContext (manager e') = None /\
   published e' =
     (published e ++
      [{| type := logout; previous_context := Some c; new_context := None;
          cleanup_performed := true; timestamp := o_now o |}])%list).
Proof.
  intros Hc. cbv zeta. unfold sessionMonitor_tick. rewrite Hc.
  change SESSION_TIMEOUT with 86400000.
  destruct (Z.ltb_spec 86400000 (t - last_activity c)) as [Hlt | Hge].
  - split; [intros H; lia |]. split.
    + intros Hg. unfold clearSessionComplete, clearSessionComplete_enter.
      rewrite Hg. reflexivity.
    + intros _ Hg.
      unfold clearSessionComplete, clearSessionComplete_enter. rewrite Hg, Hc.
      unfold clearSessionComplete_resume, clearAuthState, publish, upd.
      destruct (o_health o); cbn; rewrite ?app_nil_r, <- ?app_assoc;
        split; reflexivity.
  - split; [reflexivity |]. split; [reflexivity |]. intros H; lia.
Qed.

Lemma sessionMonitor_timeout_witness :
  sessionMonitor_tick sample_health_fix 86400000 sample_oracle logged_in_env
  = logged_in_env /\
  currentContext (manager (sessionMonitor_tick sample_health_fix 86400001
                             sample_oracle logged_in_env)) = None.
Proof.
  destruct (sessionMonitor_timeout sample_health_fix 86400000 sample_oracle
              logged_in_env (sample_context "u1" "t1") eq_refl) as [H1 _].
  destruct (sessionMonitor_timeout sample_health_fix 86400001 sample_oracle
              logged_in_env (sample_context "u1" "t1") eq_refl) as [_ [_ H3]].
  split.
  - apply H1. vm_compute. discriminate.
  - apply H3; reflexivity.
Defined.

(** X16: updateActivity changes nothing but the last_activity of the live
    context (and nothing at all when no context is live), and after it the
    idle-timeout callback stays silent for the next 24 hours. *)
Theorem updateActivity_defers_timeout (health_fix : Storage -> Storage)
    (t t' : Z) (o : Oracle) (e : Env) :
  let e1 := updateActivity t e in
  localStorage e1 = localStorage e /\ sessionStorage e1 = sessionStorage e /\
  managed e1 = managed e /\ published e1 = published e /\ calls e1 = calls e /\
  (currentContext (manager e) = None -> e1 = e) /\
  (forall c, currentContext (manager e) = Some c ->
             currentContext (manager e1) = Some (touch t c)) /\
  (t' - t <= 86400000 -> sessionMonitor_tick health_fix t' o e1 = e1).
Proof.
  cbv zeta. unfold updateActivity, sessionMonitor_tick.
  destruct (currentContext (manager e)) as [c|] eqn:Hc; cbn.
  - repeat split; try discriminate.
    + intros c0 [= <-]. reflexivity.
    + intros Hle. change SESSION_TIMEOUT with 86400000.
      destruct (Z.ltb_spec 86400000 (t' - t)); [lia | reflexivity].
  - rewrite Hc. repeat split. intros c0 H; discriminate H.
Qed.

Lemma updateActivity_defers_timeout_witness :
  sessionMonitor_tick sample_health_fix 90000000 sample_oracle
    (updateActivity 5000000 logged_in_env)
  = updateActivity 5000000 logged_in_env.
Proof.
  apply (updateActivity_defers_timeout sample_health_fix 5000000 90000000
           sample_oracle logged_in_env).
  vm_compute. discriminate.
Defined.


(** ** Session initialisation and corruption check *)

(** X18: the corruption check answers false exactly when at most three keys
    contain the session-metadata key, getSession does not throw, the
    provider's user (if any) is the live context's user (if any), and the
    health check reports healthy or warning without throwing. *)
Theorem detectSessionCorruption_clean (SESSION_METADATA : string) (o : Oracle) (e : Env) :
  detectSessionCorruption SESSION_METADATA o e = false <->
  (List.length (sessionKeys SESSION_METADATA (localStorage e)) <= 3)%nat /\
  (exists s, o_detect_getSession o = Some s /\
             forall s' c, s = Some s' -> currentContext (manager e) = Some c ->
                          id (user s') = user_id c) /\
  (o_health o = Some healthy \/ o_health o = Some warning).
Proof.
  unfold detectSessionCorruption.
  destruct (Nat.ltb_spec 3 (List.length (sessionKeys SESSION_METADATA (localStorage e))))
    as [Hk | Hk].
  - split; [discriminate | intros [H _]; lia].
  - destruct (o_detect_getSession o) as [s|];
      [| split; [discriminate | intros [_ [[s [Hs _]] _]]; discriminate Hs]].
    match goal with
    | |- context [if ?b then true else _] => destruct b eqn:Hm
    end.
    + split; [discriminate |].
      intros [_ [[s0 [Hs Hall]] _]]. injection Hs as <-.
      destruct s as [s'|]; [| discriminate Hm].
      destruct (currentContext (manager e)) as [c|] eqn:Hc; [| discriminate Hm].
      rewrite (Hall s' c eq_refl eq_refl), String.eqb_refl in Hm.
      discriminate Hm.
    + split.
      * intros H. split; [lia |]. split.
        -- exists s. split; [reflexivity |]. intros s' c -> Hc.
           rewrite Hc in Hm. apply negb_false_iff in Hm.
           apply String.eqb_eq. exact Hm.
        -- destruct (o_health o) as [[| | |]|]; try discriminate H; auto.
      * intros [_ [_ [H | H]]]; rewrite H; reflexivity.
Qed.

Section InitializeSession.

Variable decode : string -> option Payload.
Variables SESSION_METADATA CITY_ACCESS BOOTSTRAP_DATA PERMISSIONS_CACHE : string.
Variable sm_set : SessionContext -> list Entry -> list Entry.
Variable health_fix : Storage -> Storage.

Lemma initializeSession_clean (o : Oracle) (e : Env) (s : Session) :
  detectSessionCorruption SESSION_METADATA o e = false ->
  o_getSession o = Some (Some s) ->
  initializeSession decode SESSION_METADATA CITY_ACCESS BOOTSTRAP_DATA
    PERMISSIONS_CACHE sm_set health_fix o e =
  (let newContext := createSessionContext decode s (o_t1 o) (o_t2 o) (o_t3 o) in
   let e1 :=
     match currentContext (manager e), route (currentContext (manager e)) newContext with
     | Some prev, Route_user_change =>
         handleUserChange SESSION_METADATA sm_set o prev newContext e
     | Some prev, Route_tenant_change =>
         handleTenantChange SESSION_METADATA CITY_ACCESS BOOTSTRAP_DATA
           PERMISSIONS_CACHE sm_set o prev newContext e
     | _, _ => setSessionContext SESSION_METADATA sm_set o newContext e
     end in
   (currentContext (manager e1), e1)).
Proof. intros Hd Hs. unfold initializeSession. rewrite Hd, Hs. reflexivity. Qed.

(** X19: initializeSession returns null exactly when corruption is
    detected, getSession throws or there is no provider session; otherwise
    it returns the context built from the provider session, which is then
    the live context and carries the provider user's id. *)
Theorem initializeSession_returns_live_context (o : Oracle) (e : Env) :
  let out := initializeSession decode SESSION_METADATA CITY_ACCESS BOOTSTRAP_DATA
               PERMISSIONS_CACHE sm_set health_fix o e in
  (fst out = None <->
   detectSessionCorruption SESSION_METADATA o e = true \/
   o_getSession o = None \/ o_getSession o = Some None) /\
  (forall c, fst out = Some c ->
             currentContext (manager (snd out)) = Some c /\
             exists s, o_getSession o = Some (Some s) /\
                       c = createSessionContext decode s (o_t1 o) (o_t2 o) (o_t3 o) /\
                       user_id c = id (user s)).
Proof.
  cbv zeta.
  destruct (detectSessionCorruption SESSION_METADATA o e) eqn:Hd.
  - unfold initializeSession. rewrite Hd. simpl. split.
    + split; [intros _; left; reflexivity | reflexivity].
    + intros c H; discriminate H.
  - destruct (o_getSession o) as [[s|]|] eqn:Hs.
    + rewrite (initializeSession_clean o e s Hd Hs). cbv zeta.
      assert (Hlive :
        currentContext (manager
          match currentContext (manager e),
                route (currentContext (manager e))
                  (createSessionContext decode s (o_t1 o) (o_t2 o) (o_t3 o)) with
          | Some prev, Route_user_change =>
              handleUserChange SESSION_METADATA sm_set o prev
                (createSessionContext decode s (o_t1 o) (o_t2 o) (o_t3 o)) e
          | Some prev, Route_tenant_change =>
              handleTenantChange SESSION_METADATA CITY_ACCESS BOOTSTRAP_DATA
                PERMISSIONS_CACHE sm_set o prev
                (createSessionContext decode s (o_t1 o) (o_t2 o) (o_t3 o)) e
          | _, _ => setSessionContext SESSION_METADATA sm_set o
                      (createSessionContext decode s (o_t1 o) (o_t2 o) (o_t3 o)) e
          end)
        = Some (createSessionContext decode s (o_t1 o) (o_t2 o) (o_t3 o))).
      { destruct (currentContext (manager e)) as [prev|]; [| reflexivity].
        destruct (route (Some prev) _); reflexivity. }
      cbn [fst snd]. rewrite Hlive. split.
      * split; [discriminate |].
        intros [H | [H | H]]; discriminate H.
      * intros c [= <-]. split; [reflexivity |].
        exists s. repeat split.
    + unfold initializeSession. rewrite Hd, Hs. simpl. split.
      * split; [intros _; right; right; reflexivity | reflexivity].
      * intros c H; discriminate H.
    + unfold initializeSession. rewrite Hd, Hs. simpl. split.
      * split; [intros _; right; left; reflexivity | reflexivity].
      * intros c H; discriminate H.
Qed.




(** X23: when the provider session seen by the corruption check belongs
    to another user than the live context, initializeSession does not reach
    its user-change branch: the mismatch counts as corruption, so it wipes
    the storage, signs out, publishes one cleanup event and returns null. *)
Theorem user_mismatch_is_corruption (o : Oracle) (e : Env) (s : Session)
    (prev : SessionContext) :
  o_detect_getSession o = Some (Some s) ->
  currentContext (manager e) = Some prev ->
  id (user s) <> user_id prev ->
  let out := initializeSession decode SESSION_METADATA CITY_ACCESS BOOTSTRAP_DATA
               PERMISSIONS_CACHE sm_set health_fix o e in
  fst out = None /\
  currentContext (manager (snd out)) = None /\
  localStorage (snd out) = [] /\
  calls (snd out) = (calls e ++ [Call_clearAll; Call_signOut])%list /\
  published (snd out) =
    (published e ++
     [{| type := cleanup; previous_context := Some prev; new_context := None;
         cleanup_performed := true; timestamp := o_now o |}])%list.
Proof.
  intros Hs Hc Hne. cbv zeta.
  assert (Hd : detectSessionCorruption SESSION_METADATA o e = true).
  { unfold detectSessionCorruption. rewrite Hs, Hc.
    destruct (_ <? _)%nat; [reflexivity |].
    destruct (String.eqb_spec (id (user s)) (user_id prev));
      [contradiction | reflexivity]. }
  unfold initializeSession. rewrite Hd. cbn. rewrite Hc.
  rewrite <- !app_assoc, !app_nil_r. repeat split.
Qed.

End InitializeSession.

Lemma initializeSession_returns_live_context_witness :
  fst (initializeSession sample_decode "session_metadata" "city_access"
         "bootstrap_data" "permissions" sample_sm_set sample_health_fix
         session_oracle logged_in_env) <> None.
Proof.
  intros H.
  apply (proj1 (initializeSession_returns_live_context sample_decode
                  "session_metadata" "city_access" "bootstrap_data" "permissions"
                  sample_sm_set sample_health_fix session_oracle logged_in_env)) in H.
  destruct H as [H | [H | H]]; discriminate H.
Defined.




Lemma detectSessionCorruption_clean_witness :
  detectSessionCorruption "session_metadata" session_oracle logged_in_env = false.
Proof.
  apply (detectSessionCorruption_clean "session_metadata" session_oracle logged_in_env).
  split; [vm_compute; lia |]. split; [| left; reflexivity].
  exists (Some (sample_session "h.claimA.s")). split; [reflexivity |].
  intros s' c [= <-] [= <-]. reflexivity.
Defined.

Lemma performRefresh_result_witness :
  fst (fst (performRefresh fallback_env cached_manager)) = Some (sample_session "new").
Proof.
  apply (performRefresh_result fallback_env cached_manager (sample_session "new")).
  right. repeat split; try reflexivity; eexists; reflexivity.
Defined.

Lemma performRefresh_frame_witness :
  snd (fst (performRefresh
              {| primary := RO_rejects; storageKey_throws := false;
                 stored := Stored_absent; fallback := RO_rejects;
                 setSession_throws := false |} cached_manager))
  = cached_manager.
Proof.
  apply (performRefresh_frame
           {| primary := RO_rejects; storageKey_throws := false;
              stored := Stored_absent; fallback := RO_rejects;
              setSession_throws := false |} cached_manager).
  reflexivity.
Defined.

Lemma clearAuthState_effect_witness :
  In ("theme", "dark") (localStorage (clearAuthState sample_oracle corrupt_env)).
Proof.
  apply (clearAuthState_effect sample_oracle corrupt_env).
  - simpl. do 4 right. left. reflexivity.
  - reflexivity.
Defined.


Lemma user_mismatch_is_corruption_witness :
  fst (initializeSession sample_decode "session_metadata" "city_access"
         "bootstrap_data" "permissions" sample_sm_set sample_health_fix
         session_oracle (env_with_context (Some (sample_context "u0" "t1"))))
  = None.
Proof.
  apply (user_mismatch_is_corruption sample_decode "session_metadata" "city_access"
           "bootstrap_data" "permissions" sample_sm_set sample_health_fix
           session_oracle (env_with_context (Some (sample_context "u0" "t1")))
           (sample_session "h.claimA.s") (sample_context "u0" "t1")
           eq_refl eq_refl ltac:(discriminate)).
Defined.

(** ** Identity context resolver: token shape, metadata and session ids *)

Lemma split_length (sep : ascii) (s : string) :
  List.length (JsString.split sep s) = S (count_char sep s).
Proof.
  unfold count_char. induction s as [| c r IH]; simpl; [reflexivity |].
  rewrite (Ascii.eqb_sym sep c).
  destruct (Ascii.eqb c sep); simpl.
  - rewrite IH. reflexivity.
  - destruct (JsString.split sep r) as [| h t]; [discriminate IH |].
    simpl in *. exact IH.
Qed.

Lemma includes_char (c : ascii) (s : string) :
  JsString.includes (String c EmptyString) s = true <-> (1 <= count_char c s)%nat.
Proof.
  unfold count_char. induction s as [| a r IH]; simpl.
  - split; [discriminate | lia].
  - destruct (Ascii.eqb c a); simpl.
    + destruct r; simpl; split; try reflexivity; lia.
    + exact IH.
Qed.

(** X24: the resolver reads a payload from a token exactly when the token
    contains exactly two dots. *)
Theorem three_part_two_dots (tok : string) :
  three_part tok = true <-> count_char "."%char tok = 2%nat.
Proof.
  unfold three_part. rewrite !andb_true_iff, Nat.eqb_eq, split_length.
  change "." with (String "."%char EmptyString). rewrite includes_char.
  split.
  - intros [_ H]. lia.
  - intros H. repeat split; try lia.
    destruct tok; [discriminate H | reflexivity].
Qed.

Lemma three_part_two_dots_witness : three_part "h.claimA.s" = true.
Proof. apply three_part_two_dots. reflexivity. Defined.

(** X25: the metadata are consulted only when decoding throws: a token
    that has not exactly two dots and is not the mock literal, and a token
    whose payload decodes to a value without a tenant_id claim or with an
    empty one, both give the empty tenant_id whatever the application-level
    and user-level metadata hold. *)
Theorem tenant_ignores_metadata (decode : string -> option Payload) (s : Session) :
  (three_part (access_token s) = false ->
   access_token s <> mock_token ->
   resolve_tenant decode s = "") /\
  (forall c, three_part (access_token s) = true ->
             decode (payload_segment (access_token s)) = Some (PayloadValue c) ->
             c = None \/ c = Some "" ->
             resolve_tenant decode s = "").
Proof.
  unfold resolve_tenant, tenant_from_token. split.
  - intros H3 Hm. rewrite H3.
    destruct (String.eqb_spec (access_token s) mock_token); [contradiction | reflexivity].
  - intros c H3 Hd Hc. rewrite H3, Hd. destruct Hc as [-> | ->]; reflexivity.
Qed.

Lemma tenant_ignores_metadata_witness :
  resolve_tenant sample_decode (sample_session "h.noclaim.s") = "" /\
  resolve_tenant sample_decode (sample_session "opaque") = "".
Proof.
  split.
  - apply (proj2 (tenant_ignores_metadata sample_decode (sample_session "h.noclaim.s"))
             None); [reflexivity | reflexivity | left; reflexivity].
  - apply (proj1 (tenant_ignores_metadata sample_decode (sample_session "opaque")));
      [reflexivity | discriminate].
Defined.

Lemma of_Z_inj (a b : Z) : JsString.of_Z a = JsString.of_Z b -> a = b.
Proof.
  unfold JsString.of_Z. intros H.
  apply (f_equal NilZero.int_of_string) in H.
  assert (Hn : forall z, Z.to_int z <> Decimal.Pos Decimal.Nil /\
                         Z.to_int z <> Decimal.Neg Decimal.Nil).
  { intros [| p | p]; simpl; split; try discriminate;
      intros [= Hp]; exact (DecimalPos.Unsigned.to_uint_nonnil p Hp). }
  rewrite !NilZero.isi in H by apply Hn.
  injection H as H. apply (f_equal Z.of_int) in H.
  rewrite !DecimalZ.of_to in H. exact H.
Qed.

Lemma append_cancel (p a b : string) : p ++ a = p ++ b -> a = b.
Proof.
  induction p as [| c p IH]; simpl; intros H; [exact H |].
  injection H as H. exact (IH H).
Qed.

(** X26: for the same user, contexts created at different instants get
    different session ids. *)
Theorem session_id_fresh (decode : string -> option Payload) (s : Session)
    (t1 t2 t3 t1' t2' t3' : Z) :
  t1 <> t1' ->
  session_id (createSessionContext decode s t1 t2 t3) <>
  session_id (createSessionContext decode s t1' t2' t3').
Proof.
  intros Hne H. cbn [session_id createSessionContext] in H.
  apply append_cancel, append_cancel, append_cancel in H.
  apply Hne, of_Z_inj, H.
Qed.

Lemma session_id_fresh_witness :
  session_id (createSessionContext sample_decode (sample_session "t") 5 5 5) <>
  session_id (createSessionContext sample_decode (sample_session "t") 6 6 6).
Proof.
  apply (session_id_fresh sample_decode (sample_session "t") 5 5 5 6 6 6).
  discriminate.
Defined.

(** ** Sidebar permissions *)

(** X27: hasPermission denies a missing user and a user without a
    permissions array, administrators included; with a permissions array
    (even an empty one) an administrator is granted every section. *)
Theorem hasPermission_admin (u : NavUser) (sec : string) :
  hasPermission None sec = false /\
  (permissions u = None -> hasPermission (Some u) sec = false) /\
  (permissions u <> None ->
   isAdmin u = true \/ role u = Some "admin" ->
   hasPermission (Some u) sec = true).
Proof.
  unfold hasPermission. split; [reflexivity |]. split.
  - intros ->. reflexivity.
  - destruct (permissions u) as [ps|]; [| contradiction].
    intros _ [-> | ->]; [reflexivity |]. rewrite orb_true_r. reflexivity.
Qed.

Lemma hasPermission_admin_witness :
  hasPermission (Some {| permissions := None; isAdmin := true; role := Some "admin" |})
    "properties" = false /\
  hasPermission (Some {| permissions := Some []; isAdmin := true; role := None |})
    "properties" = true.
Proof.
  split.
  - apply (hasPermission_admin {| permissions := None; isAdmin := true;
                                  role := Some "admin" |} "properties").
    reflexivity.
  - apply (hasPermission_admin {| permissions := Some []; isAdmin := true;
                                  role := None |} "properties").
    + discriminate.
    + left. reflexivity.
Defined.

(** X28: the sidebar always shows the Dashboard entry first; a missing
    user or a user without a permissions array sees only that entry, and an
    administrator with a permissions array sees all four entries. *)
Theorem getFilteredNavigation_entries (u : NavUser) :
  (forall v, exists rest, getFilteredNavigation v
                          = (mkNavItem "Dashboard" "/dashboard" "dashboard" true :: rest)%list) /\
  getFilteredNavigation None = [mkNavItem "Dashboard" "/dashboard" "dashboard" true] /\
  (permissions u = None ->
   getFilteredNavigation (Some u) = [mkNavItem "Dashboard" "/dashboard" "dashboard" true]) /\
  (permissions u <> None -> isAdmin u = true \/ role u = Some "admin" ->
   getFilteredNavigation (Some u) = nav_items).
Proof.
  split; [| split; [| split]].
  - intros v. eexists. unfold getFilteredNavigation, nav_items. simpl. reflexivity.
  - reflexivity.
  - intros Hp. unfold getFilteredNavigation, nav_items, hasPermission. simpl.
    rewrite Hp. reflexivity.
  - intros Hp Ha. unfold getFilteredNavigation, nav_items, hasPermission. simpl.
    destruct (permissions u) as [ps|]; [| contradiction].
    destruct Ha as [-> | ->]; [reflexivity |]. rewrite orb_true_r. reflexivity.
Qed.

Lemma getFilteredNavigation_entries_witness :
  getFilteredNavigation
    (Some {| permissions := Some []; isAdmin := false; role := Some "admin" |})
  = nav_items.
Proof.
  apply (getFilteredNavigation_entries
           {| permissions := Some []; isAdmin := false; role := Some "admin" |}).
  - discriminate.
  - right. reflexivity.
Defined.

(** ** Tenant enrichment of the auth context *)

(** X29: enrichUserWithTenant follows the ordered fallback: a non-empty
    tenant from the token wins over the metadata; without one the result is
    that of enrichUserFallback (application-level metadata, then user-level
    metadata, then null); and the stored tenant_id is never the empty
    string. *)
Theorem enrichUserWithTenant_priority (jwt : option string) (u : User) :
  (forall j, jwt = Some j -> j <> "" -> enrichUserWithTenant jwt u = Some j) /\
  (truthy_opt jwt = false -> enrichUserWithTenant jwt u = enrichUserFallback u) /\
  enrichUserWithTenant jwt u <> Some "" /\
  enrichUserFallback u <> Some "".
Proof.
  unfold enrichUserWithTenant, enrichUserFallback.
  destruct jwt as [[| c j] |]; destruct (app_tenant u) as [[| a1 a] |];
    destruct (user_tenant u) as [[| b1 b] |]; simpl;
    repeat split; try discriminate; try reflexivity;
    intros j0 H; try discriminate H; injection H as <-; intros Hj;
    try reflexivity; contradiction.
Qed.

Lemma enrichUserWithTenant_priority_witness :
  enrichUserWithTenant (Some "tenant-a") sample_user = Some "tenant-a" /\
  enrichUserWithTenant None sample_user = enrichUserFallback sample_user.
Proof.
  split.
  - apply (proj1 (enrichUserWithTenant_priority (Some "tenant-a") sample_user));
      [reflexivity | discriminate].
  - apply (proj1 (proj2 (enrichUserWithTenant_priority None sample_user))).
    reflexivity.
Defined.

(** ** Activity log: display name *)

Lemma or_else_empty (a d : string) : JsString.or_else a d = "" -> d = "".
Proof. unfold JsString.or_else. destruct a; simpl; [auto | discriminate]. Qed.

Lemma opt_or_empty (a : option string) (d : string) :
  JsString.opt_or a d = "" -> d = "" /\ truthy_opt a = false.
Proof.
  unfold JsString.opt_or, JsString.or_else.
  destruct a as [[| c s] |]; simpl; intros H; try discriminate H; auto.
Qed.

Lemma split_head_empty (sep c : ascii) (r : string) :
  hd EmptyString (JsString.split sep (String c r)) = "" -> c = sep.
Proof.
  simpl. destruct (Ascii.eqb_spec c sep) as [-> | Hne]; [reflexivity |].
  destruct (JsString.split sep r); simpl; discriminate.
Qed.

(** X30: the display name computed for a log row is empty only when the row
    has no creator name and its user is known, has no name, and has an
    e-mail address that starts with an at sign; in every other case it is a
    non-empty string (System for an unknown user). *)
Theorem log_user_name_empty (created : option string) (u : option UserBrief) :
  log_user_name created u = "" ->
  truthy_opt created = false /\
  exists b r, u = Some b /\ truthy_opt (brief_name b) = false /\
              brief_email b = Some (String "@"%char r).
Proof.
  unfold log_user_name. intros H.
  apply opt_or_empty in H. destruct H as [H Hc]. split; [exact Hc |].
  destruct u as [b|]; [| discriminate H].
  apply opt_or_empty in H. destruct H as [H Hn].
  destruct (brief_email b) as [[| c r] |] eqn:He; try discriminate H.
  simpl JsString.truthy in H. cbv iota in H.
  apply split_head_empty in H. subst c.
  exists b, r. repeat split; assumption.
Qed.

Lemma log_user_name_empty_witness :
  exists b r, Some (mkUserBrief None (Some "@corp")) = Some b /\
              truthy_opt (brief_name b) = false /\
              brief_email b = Some (String "@"%char r).
Proof.
  apply (log_user_name_empty None (Some (mkUserBrief None (Some "@corp")))).
  reflexivity.
Defined.
